(** * Esteira de Produção Inteligente: the orchestrator of [main.py]

    A shallow embedding of [EstudoOrchestrator] and of the HTTP handlers
    of [main.py].  Python values are an inductive type, dicts are
    association lists in insertion order, and the effects of the
    program (the counters of [processing_stats], the clock,
    [asyncio.sleep], the outbound HTTP calls) are threaded through a
    state-and-exception monad.  What lies outside the repository (the
    clock, the JSON decoder of [request.json()], the network, injected
    failures, the limits of the interpreter on what [str] converts) is
    gathered in an environment record [Env], over which the general
    theorems quantify.  Concurrent requests are coroutines that
    the scheduler resumes, in any order, at their [await asyncio.sleep].

    Strings are byte strings: a non-ASCII Python string is written as
    its UTF-8 encoding.  Of a logging call only the evaluation of its
    f-string is kept, where the field is a value of the request or of
    the environment ([study_id] in [process_study], [port] in [main]):
    [str] raises on an int of too many digits and on a value nested too
    deep.  The logging itself neither raises nor changes any value the
    handlers return. *)

From Stdlib Require Import ZArith QArith List String Ascii Bool Lia PeanoNat.
From Stdlib Require Import DecimalString.
Import ListNotations.
Local Open Scope string_scope.
Local Open Scope Z_scope.
Set Warnings "-register-all".

(** ** Python values *)

(** The floats that are no numbers: what [json.loads] makes of the
    literals [NaN], [Infinity] and [-Infinity]. *)
Inductive nonfinite : Type := NaN | PosInfinity | NegInfinity.

(** The values the program manipulates: what [json.loads] produces,
    plus the [datetime] object kept in [processing_stats].  A float is
    a [PFloat] or a [PNonFinite]; a [PDatetime] holds microseconds
    since the epoch. *)
Inductive pyval : Type :=
| PNone
| PBool (b : bool)
| PInt (n : Z)
| PFloat (q : Q)
| PNonFinite (x : nonfinite)
| PStr (s : string)
| PList (l : list pyval)
| PDict (d : list (string * pyval))
| PDatetime (t : Z).

Definition dict := list (string * pyval).

(** [d.get(key)] on a dict. *)
Fixpoint dict_get (d : dict) (key : string) : option pyval :=
  match d with
  | [] => None
  | (k, v) :: rest => if String.eqb k key then Some v else dict_get rest key
  end.

(** [d[key] = v]: overwrite in place, or append a new key. *)
Fixpoint dict_set (d : dict) (key : string) (v : pyval) : dict :=
  match d with
  | [] => [(key, v)]
  | (k, v0) :: rest =>
      if String.eqb k key then (k, v) :: rest
      else (k, v0) :: dict_set rest key v
  end.

Definition dict_keys (d : dict) : list string := map fst d.

(** Field access on a value that may or may not be a dict. *)
Definition field (v : pyval) (key : string) : option pyval :=
  match v with
  | PDict d => dict_get d key
  | _ => None
  end.

(** [type(v).__name__] *)
Definition type_name (v : pyval) : string :=
  match v with
  | PNone => "NoneType"
  | PBool _ => "bool"
  | PInt _ => "int"
  | PFloat _ => "float"
  | PNonFinite _ => "float"
  | PStr _ => "str"
  | PList _ => "list"
  | PDict _ => "dict"
  | PDatetime _ => "datetime"
  end.

(** ** Exceptions *)

Inductive exn_class : Type :=
| AttributeError
| TypeError
| ValueError
| RuntimeError
| RecursionError
| JSONDecodeError
| ClientConnectorError
| TimeoutError
| CancelledError
| KeyboardInterrupt.

(** [issubclass(c, Exception)]: [CancelledError] (Python 3.8 and later)
    and [KeyboardInterrupt] derive from [BaseException] only. *)
Definition derives_from_Exception (c : exn_class) : bool :=
  match c with
  | CancelledError | KeyboardInterrupt => false
  | _ => true
  end.

Record pyexn : Type := mk_exn { exn_cls : exn_class; exn_msg : string }.

(** [str(e)] *)
Definition str_exn (e : pyexn) : string := exn_msg e.

Definition is_Exception (e : pyexn) : bool :=
  derives_from_Exception (exn_cls e).

(** ** The world outside the repository *)

Inductive http_method : Type := GET | POST.

(** One call of [session.post] / [session.get]. *)
Record HttpRequest : Type := mk_http {
  http_method_of : http_method;
  http_url : string;
  http_headers : dict;
  http_json : option pyval;
  http_timeout : Z
}.

(** What such a call does: a response with a status code, or an
    exception (connection failure, timeout, invalid URL, ...). *)
Inductive http_outcome : Type :=
| HttpStatus (code : Z)
| HttpRaises (e : pyexn).

Record Env : Type := mk_env {
  (** [os.getenv] *)
  getenv : string -> option string;
  (** the value of the k-th call of [datetime.now()] *)
  now_at : nat -> Z;
  (** [datetime.isoformat] *)
  isoformat : Z -> string;
  (** the k-th [await asyncio.sleep(...)]: returns, or raises
      (cancellation, or a failure injected by a test) *)
  sleep_at : nat -> option pyexn;
  (** the k-th outbound HTTP call *)
  http_at : nat -> HttpRequest -> http_outcome;
  (** [json.loads], as [request.json()] calls it on the body text *)
  json_loads : string -> pyexn + pyval;
  (** [sys.get_int_max_str_digits()]: the longest decimal numeral that
      [str] gives for an int, or 0 for no limit *)
  max_str_digits : Z;
  (** how deep [repr] descends into nested lists and dicts before the
      recursion limit of the interpreter stops it *)
  repr_depth : nat
}.

(** ** Program state *)

(** [self.processing_stats] *)
Record ProcessingStats : Type := mk_stats {
  studies_completed : Z;
  studies_failed : Z;
  uptime_start : Z
}.

(** [self.config] *)
Record Config : Type := mk_config {
  openai_key : option string;
  google_key : option string;
  anthropic_key : option string;
  cohere_key : option string;
  mistral_key : option string;
  supabase_url : option string;
  supabase_key : option string
}.

(** The orchestrator object, and how far the environment has been
    consumed: the number of clock reads and of sleeps so far, and the
    outbound HTTP calls made so far (latest last).  The attribute
    [active_studies], which nothing reads or writes after the
    constructor, is left out. *)
Record State : Type := mk_state {
  processing_stats : ProcessingStats;
  config : Config;
  n_now : nat;
  n_sleep : nat;
  sent : list HttpRequest
}.

Definition set_stats (st : State) (s : ProcessingStats) : State :=
  mk_state s (config st) (n_now st) (n_sleep st) (sent st).

(** ** A state-and-exception monad *)

Inductive outcome (A : Type) : Type :=
| Returned (a : A)
| Raised (e : pyexn).
Arguments Returned {A} a.
Arguments Raised {A} e.

Definition M (A : Type) : Type := State -> outcome A * State.

Definition ret {A} (a : A) : M A := fun st => (Returned a, st).

Definition raise {A} (e : pyexn) : M A := fun st => (Raised e, st).

Definition bind {A B} (m : M A) (k : A -> M B) : M B :=
  fun st =>
    match m st with
    | (Returned a, st') => k a st'
    | (Raised e, st') => (Raised e, st')
    end.

Notation "x <- m ;; k" := (bind m (fun x => k))
  (at level 61, m at next level, right associativity).
Notation "m ;;; k" := (bind m (fun _ => k))
  (at level 61, right associativity).

(** [try: body / except Exception as e: handler e] *)
Definition try_except_Exception {A} (body : M A) (handler : pyexn -> M A) : M A :=
  fun st =>
    match body st with
    | (Returned a, st') => (Returned a, st')
    | (Raised e, st') =>
        if is_Exception e then handler e st' else (Raised e, st')
    end.

(** [try: body / except: handler] (a bare except catches everything) *)
Definition try_except_all {A} (body : M A) (handler : M A) : M A :=
  fun st =>
    match body st with
    | (Returned a, st') => (Returned a, st')
    | (Raised _, st') => handler st'
    end.


(** ** The program *)

(** How an f-string renders a value that is a string or [None]. *)
Definition format_opt (o : option string) : string :=
  match o with
  | Some s => s
  | None => "None"
  end.

Definition val_opt (o : option string) : pyval :=
  match o with
  | Some s => PStr s
  | None => PNone
  end.

(** [json.dumps] accepts every value but a [datetime]. *)
Fixpoint json_serializable (v : pyval) : bool :=
  match v with
  | PDatetime _ => false
  | PList l =>
      (fix all (l : list pyval) : bool :=
         match l with
         | [] => true
         | x :: r => json_serializable x && all r
         end) l
  | PDict d =>
      (fix all (d : list (string * pyval)) : bool :=
         match d with
         | [] => true
         | (_, x) :: r => json_serializable x && all r
         end) d
  | _ => true
  end.

(** [sys.int_info.default_max_str_digits] and
    [sys.int_info.str_digits_check_threshold]: the limit on the digits
    of an int that [str] converts, as the interpreter starts with it,
    and the least limit that can be set. *)
Definition default_max_str_digits : Z := 4300.
Definition str_digits_check_threshold : Z := 640.

(** The limit in force: none when the setting is 0.  (The interpreter
    refuses a setting that is negative or between 1 and 639; such a
    field is read as no limit and as the threshold.) *)
Definition digits_limit (env : Env) : option Z :=
  if max_str_digits env <=? 0 then None
  else Some (Z.max str_digits_check_threshold (max_str_digits env)).

(** Why [str] gives up on a value. *)
Inductive str_failure : Type :=
| TooManyDigits (limit : Z)
| TooDeep.

(** What it then raises, both of them [Exception]s. *)
Definition str_failure_exn (f : str_failure) : pyexn :=
  match f with
  | TooManyDigits limit =>
      mk_exn ValueError
        ("Exceeds the limit (" ++ NilZero.string_of_int (Z.to_int limit)
         ++ " digits) for integer string conversion; use sys.set_int_max_str_digits() to increase the limit")
  | TooDeep =>
      mk_exn RecursionError
        "maximum recursion depth exceeded while getting the repr of an object"
  end.

(** [str] on an int: refused when the int has more digits than the
    limit. *)
Definition int_failure (env : Env) (n : Z) : option str_failure :=
  match digits_limit env with
  | None => None
  | Some limit =>
      if Z.abs n <? 10 ^ limit then None else Some (TooManyDigits limit)
  end.

(** [repr] of a value with [depth] levels of nesting left, items from
    left to right: the first failure met, if any.  An empty list or
    dict is written without descending; the keys of a dict are
    strings. *)
Fixpoint repr_failure (env : Env) (v : pyval) (depth : nat) {struct v}
  : option str_failure :=
  match v with
  | PInt n => int_failure env n
  | PList l =>
      match l, depth with
      | [], _ => None
      | _ :: _, O => Some TooDeep
      | _ :: _, S depth' =>
          (fix first (l : list pyval) : option str_failure :=
             match l with
             | [] => None
             | x :: r =>
                 match repr_failure env x depth' with
                 | Some f => Some f
                 | None => first r
                 end
             end) l
      end
  | PDict d =>
      match d, depth with
      | [], _ => None
      | _ :: _, O => Some TooDeep
      | _ :: _, S depth' =>
          (fix first (d : list (string * pyval)) : option str_failure :=
             match d with
             | [] => None
             | (_, x) :: r =>
                 match repr_failure env x depth' with
                 | Some f => Some f
                 | None => first r
                 end
             end) d
      end
  | _ => None
  end.

(** What [str(v)] raises, if anything, as an f-string calls it on a
    field: [ValueError] on an int of too many digits, [RecursionError]
    on a value nested too deep. *)
Definition str_error (env : Env) (v : pyval) : option pyexn :=
  option_map str_failure_exn (repr_failure env v (repr_depth env)).

(** Whether [str(v)] returns. *)
Definition renders (env : Env) (v : pyval) : bool :=
  match str_error env v with
  | None => true
  | Some _ => false
  end.

(** The evaluation of an f-string with the field [v], as the logging
    calls of [process_study] and of [main] do before they log. *)
Definition render (env : Env) (v : pyval) : M unit :=
  match str_error env v with
  | None => ret tt
  | Some e => raise e
  end.

Record Request : Type := mk_request { req_body : string }.

Record Response : Type := mk_response {
  resp_status : Z;
  resp_content_type : string;
  resp_json : pyval
}.

(** [web.json_response(data)]: serialises [data] with [json.dumps]
    when it is called, and answers 200. *)
Definition json_response (data : pyval) : M Response :=
  if json_serializable data
  then ret (mk_response 200 "application/json" data)
  else raise (mk_exn TypeError
                "Object of type datetime is not JSON serializable").

(** The status the aiohttp server answers with: the one of the
    handler's response, or 500 when the handler raises an [Exception];
    an interrupted handler (cancellation) sends no answer. *)
Definition served_status (o : outcome Response) : option Z :=
  match o with
  | Returned r => Some (resp_status r)
  | Raised e => if is_Exception e then Some 500 else None
  end.

(** [d.get(key, default)] on a dict *)
Definition get_default (d : dict) (key : string) (default : pyval) : pyval :=
  match dict_get d key with
  | Some x => x
  | None => default
  end.

(** [study_data.get(key, default)]: only a dict has the method. *)
Definition py_get (v : pyval) (key : string) (default : pyval) : M pyval :=
  match v with
  | PDict d => ret (get_default d key default)
  | _ =>
      raise (mk_exn AttributeError
               ("'" ++ type_name v ++ "' object has no attribute 'get'"))
  end.

(** The four phases of [process_study], in the order of the source. *)
Definition phases : list string :=
  [ "Planejamento Estratégico";
    "Extração de Dados";
    "Geração de Conteúdo";
    "Polimento Final" ].

Definition phase_record (phase ts : string) : pyval :=
  PDict [ ("phase", PStr phase);
          ("status", PStr "completed");
          ("timestamp", PStr ts) ].

Definition demo_data : pyval :=
  PDict [ ("id", PStr "demo-study");
          ("title", PStr "Estudo de Demonstração");
          ("client", PStr "Cliente Demo") ].

Definition openai_url : string := "https://api.openai.com/v1/chat/completions".

Definition openai_payload : pyval :=
  PDict [ ("model", PStr "gpt-4-turbo-preview");
          ("messages",
           PList [ PDict [ ("role", PStr "user"); ("content", PStr "Test") ] ]);
          ("max_tokens", PInt 5) ].

Definition openai_request (c : Config) : HttpRequest :=
  mk_http POST openai_url
    [ ("Authorization", PStr ("Bearer " ++ format_opt (openai_key c)));
      ("Content-Type", PStr "application/json") ]
    (Some openai_payload) 30.

Definition supabase_request (c : Config) : HttpRequest :=
  mk_http GET (format_opt (supabase_url c) ++ "/rest/v1/")
    [ ("apikey", val_opt (supabase_key c));
      ("Authorization", PStr ("Bearer " ++ format_opt (supabase_key c))) ]
    None 30.

(** The entry [test_apis] stores for a response with status [code]. *)
Definition probe_entry (code : Z) (response_time : string) : pyval :=
  PDict [ ("status", PStr (if code =? 200 then "ok" else "error"));
          ("response_time", PStr response_time) ].

(** The entry [test_apis] stores when the probe raised [e]. *)
Definition probe_error (e : pyexn) : pyval :=
  PDict [ ("status", PStr "error"); ("error", PStr (str_exn e)) ].

(** [processing_stats] as the dict the program keeps. *)
Definition stats_dict (s : ProcessingStats) : pyval :=
  PDict [ ("studies_completed", PInt (studies_completed s));
          ("studies_failed", PInt (studies_failed s));
          ("uptime_start", PDatetime (uptime_start s)) ].

(** [m * 2^s / d] as a fraction of non-negative integers, [s] of
    either sign. *)
Definition scaled (m d s : Z) : Z * Z :=
  if 0 <=? s then (m * 2 ^ s, d) else (m, d * 2 ^ (- s)).

(** The integer part of the float nearest to [m / d], for positive [m]
    and [d]: the quotient is scaled to a mantissa of 53 bits, rounded
    to the nearest integer, ties to even, and scaled back. *)
Definition trunc_of_nearest_float (m d : Z) : Z :=
  let s0 := 52 - (Z.log2 m - Z.log2 d) in
  let s := if (fst (scaled m d s0) / snd (scaled m d s0)) <? 2 ^ 52
           then s0 + 1 else s0 in
  let (num, den) := scaled m d s in
  let mantissa :=
    if (den <? 2 * (num mod den))
       || ((den =? 2 * (num mod den)) && Z.odd (num / den))
    then num / den + 1 else num / den in
  if 0 <=? s then mantissa / 2 ^ s else mantissa * 2 ^ (- s).

(** [int(delta.total_seconds())] for a difference of [delta]
    microseconds: [total_seconds] divides by [10**6] into a float,
    [int] truncates it toward zero.  Up to 2^33 seconds this is the
    whole number of seconds; beyond, the float may round up to the next
    second. *)
Definition int_total_seconds (delta : Z) : Z :=
  match delta with
  | 0 => 0
  | Zpos _ => trunc_of_nearest_float delta 1000000
  | Zneg _ => - trunc_of_nearest_float (- delta) 1000000
  end.

(** The dict [final_result] of [process_study], as a function of the
    variables its literal mentions. *)
Definition final_result_of (study_id : pyval) (results : list pyval)
  (title : pyval) (completed_at : string) : pyval :=
  PDict [ ("study_id", study_id);
          ("status", PStr "completed");
          ("phases", PList results);
          ("final_content",
           PDict [ ("title", title);
                   ("chapters", PInt 8);
                   ("words", PInt 15000);
                   ("images", PInt 5);
                   ("charts", PInt 3);
                   ("processing_time", PStr "2.5 hours");
                   ("cost_usd", PFloat (15 # 2)) ]);
          ("completed_at", PStr completed_at) ].

(** The dict the [except] branch of [process_study] returns. *)
Definition error_result_of (study_id : pyval) (e : pyexn) (failed_at : string)
  : pyval :=
  PDict [ ("study_id", study_id);
          ("status", PStr "error");
          ("error", PStr (str_exn e));
          ("failed_at", PStr failed_at) ].

(** The dict [health_check] passes to [json_response], as a function
    of the variables its literal mentions. *)
Definition health_payload (uptime : Z) (stats : ProcessingStats)
  (timestamp : string) : pyval :=
  PDict [ ("status", PStr "healthy");
          ("service", PStr "Esteira de Produção Inteligente");
          ("uptime_seconds", PInt (int_total_seconds uptime));
          ("stats", stats_dict stats);
          ("timestamp", PStr timestamp) ].

Section Program.

Variable env : Env.

(** [datetime.now()] *)
Definition datetime_now : M Z :=
  fun st =>
    (Returned (now_at env (n_now st)),
     mk_state (processing_stats st) (config st) (S (n_now st)) (n_sleep st)
       (sent st)).

(** [datetime.now().isoformat()] *)
Definition now_isoformat : M string :=
  t <- datetime_now ;; ret (isoformat env t).

(** [await asyncio.sleep(seconds)] *)
Definition asyncio_sleep (seconds : Z) : M unit :=
  fun st =>
    let st' := mk_state (processing_stats st) (config st) (n_now st)
                 (S (n_sleep st)) (sent st) in
    match sleep_at env (n_sleep st) with
    | None => (Returned tt, st')
    | Some e => (Raised e, st')
    end.

(** [async with session.post/get(...) as response]: the status of the
    response. *)
Definition http_call (req : HttpRequest) : M Z :=
  fun st =>
    let st' := mk_state (processing_stats st) (config st) (n_now st)
                 (n_sleep st) (sent st ++ [req]) in
    match http_at env (List.length (sent st)) req with
    | HttpStatus code => (Returned code, st')
    | HttpRaises e => (Raised e, st')
    end.

(** [await request.json()] *)
Definition request_json (request : Request) : M pyval :=
  match json_loads env (req_body request) with
  | inr v => ret v
  | inl e => raise e
  end.

Definition get_stats : M ProcessingStats :=
  fun st => (Returned (processing_stats st), st).

Definition get_config : M Config :=
  fun st => (Returned (config st), st).

(** [self.processing_stats['studies_completed'] += 1] *)
Definition incr_completed : M unit :=
  fun st =>
    let s := processing_stats st in
    (Returned tt,
     set_stats st (mk_stats (studies_completed s + 1) (studies_failed s)
                     (uptime_start s))).

(** [self.processing_stats['studies_failed'] += 1] *)
Definition incr_failed : M unit :=
  fun st =>
    let s := processing_stats st in
    (Returned tt,
     set_stats st (mk_stats (studies_completed s) (studies_failed s + 1)
                     (uptime_start s))).

(** [EstudoOrchestrator.__init__] *)
Definition EstudoOrchestrator_init : M unit :=
  fun st =>
    (Returned tt,
     mk_state (mk_stats 0 0 (now_at env (n_now st)))
       (mk_config (getenv env "OPENAI_API_KEY") (getenv env "GOOGLE_API_KEY")
          (getenv env "ANTHROPIC_API_KEY") (getenv env "COHERE_API_KEY")
          (getenv env "MISTRAL_API_KEY") (getenv env "SUPABASE_URL")
          (getenv env "SUPABASE_KEY"))
       (S (n_now st)) (n_sleep st) (sent st)).

(** The body of the [for] loop of [process_study], [results] being the
    list built so far. *)
Definition run_phase (phase : string) (results : list pyval)
  : M (list pyval) :=
  asyncio_sleep 2 ;;;
  ts <- now_isoformat ;;
  ret (results ++ [phase_record phase ts])%list.

(** The [for] loop of [process_study] over the phases still to run. *)
Fixpoint run_phases (ps : list string) (results : list pyval)
  : M (list pyval) :=
  match ps with
  | [] => ret results
  | phase :: rest =>
      results <- run_phase phase results ;;
      run_phases rest results
  end.

(** The [try] block of [process_study] after its loop: the final
    result is built, the study counted as completed, and the success
    logged with the id. *)
Definition finish_study (study_data study_id : pyval) (results : list pyval)
  : M pyval :=
  title <- py_get study_data "title" (PStr "Estudo Técnico Automatizado") ;;
  completed_at <- now_isoformat ;;
  let final_result := final_result_of study_id results title completed_at in
  incr_completed ;;;
  render env study_id ;;;
  ret final_result.

(** The [except Exception as e] block of [process_study]: the error is
    logged with the id before the study is counted as failed. *)
Definition except_study (study_id : pyval) (e : pyexn) : M pyval :=
  render env study_id ;;;
  incr_failed ;;;
  failed_at <- now_isoformat ;;
  ret (error_result_of study_id e failed_at).

(** [EstudoOrchestrator.process_study]; the first statement of its
    [try] block logs the id. *)
Definition process_study (study_data : pyval) : M pyval :=
  study_id <- py_get study_data "id" (PStr "demo-001") ;;
  try_except_Exception
    (render env study_id ;;;
     results <- run_phases phases [] ;;
     finish_study study_data study_id results)
    (except_study study_id).

(** [EstudoOrchestrator.test_apis]; [results] is the local dict. *)
Definition test_apis : M pyval :=
  let results : dict := [] in
  results <-
    try_except_Exception
      (c <- get_config ;;
       code <- http_call (openai_request c) ;;
       ret (dict_set results "openai" (probe_entry code "~1s")))
      (fun e => ret (dict_set results "openai" (probe_error e))) ;;
  results <-
    try_except_Exception
      (c <- get_config ;;
       code <- http_call (supabase_request c) ;;
       ret (dict_set results "supabase" (probe_entry code "~500ms")))
      (fun e => ret (dict_set results "supabase" (probe_error e))) ;;
  ret (PDict results).

(** [health_check] *)
Definition health_check (request : Request) : M Response :=
  now <- datetime_now ;;
  stats <- get_stats ;;
  let uptime := now - uptime_start stats in
  timestamp <- now_isoformat ;;
  json_response (health_payload uptime stats timestamp).

(** [api_status] *)
Definition api_status (request : Request) : M Response :=
  api_results <- test_apis ;;
  timestamp <- now_isoformat ;;
  json_response
    (PDict [ ("apis", api_results); ("timestamp", PStr timestamp) ]).

(** [process_study_endpoint] *)
Definition process_study_endpoint (request : Request) : M Response :=
  data <- try_except_all (request_json request) (ret demo_data) ;;
  result <- process_study data ;;
  json_response result.

End Program.

(** ** Interleaved invocations

    The server runs one coroutine per request.  A coroutine of
    [process_study] gives up control only in [await asyncio.sleep(2)];
    the scheduler then resumes any of the suspended coroutines.  The
    sleeps of the environment are numbered in the order in which they
    are resumed. *)

(** A call of [process_study], suspended in the sleep of the first
    phase of [remaining] with its local variables, or finished. *)
Inductive Task : Type :=
| Sleeping (study_data study_id : pyval) (remaining : list string)
    (results : list pyval)
| Done (o : outcome pyval).

Definition done (m : M pyval) : State -> Task * State :=
  fun st => let (o, st') := m st in (Done o, st').

Section Tasks.

Variable env : Env.

(** From the top of an iteration of the loop to the next suspension,
    or to the end of the call when no phase is left. *)
Definition enter_loop (study_data study_id : pyval) (ps : list string)
  (results : list pyval) : State -> Task * State :=
  match ps with
  | [] =>
      done (try_except_Exception (finish_study env study_data study_id results)
              (except_study env study_id))
  | _ :: _ => fun st => (Sleeping study_data study_id ps results, st)
  end.

(** A call of [process_study], up to its first suspension. *)
Definition call_study (study_data : pyval) : State -> Task * State :=
  fun st =>
    match py_get study_data "id" (PStr "demo-001") st with
    | (Returned study_id, st') =>
        match render env study_id st' with
        | (Returned _, st1) => enter_loop study_data study_id phases [] st1
        | (Raised e, st1) =>
            done (try_except_Exception (raise e) (except_study env study_id))
              st1
        end
    | (Raised e, st') => (Done (Raised e), st')
    end.

(** The scheduler resumes a coroutine: the rest of the iteration, then
    on to the next suspension; a failure of the sleep is raised inside
    the [try] block. *)
Definition resume (t : Task) : State -> Task * State :=
  match t with
  | Done o => fun st => (Done o, st)
  | Sleeping study_data study_id [] results =>
      enter_loop study_data study_id [] results
  | Sleeping study_data study_id (phase :: rest) results =>
      fun st =>
        match run_phase env phase results st with
        | (Returned results', st') =>
            enter_loop study_data study_id rest results' st'
        | (Raised e, st') =>
            done (try_except_Exception (raise e) (except_study env study_id)) st'
        end
  end.

Fixpoint resume_n (n : nat) (t : Task) (st : State) : Task * State :=
  match n with
  | O => (t, st)
  | S n' => let (t', st') := resume t st in resume_n n' t' st'
  end.

End Tasks.

(** What happens on the server: a request arrives with a dict, and its
    coroutine runs to its first suspension; or the scheduler resumes the
    coroutine of index [i]. *)
Inductive event : Type :=
| Call (study_data : dict)
| Wake (i : nat).

Fixpoint set_nth {A : Type} (i : nat) (x : A) (l : list A) : list A :=
  match l, i with
  | [], _ => []
  | _ :: r, O => x :: r
  | y :: r, S j => y :: set_nth j x r
  end.

Definition run_event (env : Env) (ev : event) (pool : list Task) (st : State)
  : list Task * State :=
  match ev with
  | Call d =>
      let (t, st') := call_study env (PDict d) st in ((pool ++ [t])%list, st')
  | Wake i =>
      match nth_error pool i with
      | Some t => let (t', st') := resume env t st in (set_nth i t' pool, st')
      | None => (pool, st)
      end
  end.

Fixpoint run_events (env : Env) (evs : list event) (pool : list Task)
  (st : State) : list Task * State :=
  match evs with
  | [] => (pool, st)
  | ev :: rest =>
      let (pool', st') := run_event env ev pool st in
      run_events env rest pool' st'
  end.

(** The outcomes of the coroutines that have finished. *)
Fixpoint finished (pool : list Task) : list (outcome pyval) :=
  match pool with
  | [] => []
  | Done o :: rest => o :: finished rest
  | Sleeping _ _ _ _ :: rest => finished rest
  end.

(** Two requests whose coroutines interleave: with [failing_env 5 boom]
    the sleep resumed sixth fails, in the coroutine of the second
    request; the first request completes. *)
Definition two_interleaved : list event :=
  [ Call [("id", PStr "a")]; Call [("id", PStr "b")];
    Wake 0; Wake 1; Wake 1; Wake 0; Wake 0; Wake 1; Wake 0 ].

Definition has_status (status : string) (o : outcome pyval) : bool :=
  match o with
  | Returned r =>
      match field r "status" with
      | Some (PStr s) => String.eqb s status
      | _ => false
      end
  | Raised _ => false
  end.

(** The number of invocations that returned a result with the given
    status. *)
Definition count_status (status : string) (os : list (outcome pyval)) : Z :=
  Z.of_nat (List.length (filter (has_status status) os)).

(** A result in one of the two shapes [process_study] builds. *)
Definition is_JobResult (r : pyval) : bool :=
  match field r "study_id", field r "status" with
  | Some _, Some (PStr s) =>
      if String.eqb s "completed" then
        match field r "phases", field r "final_content",
              field r "completed_at" with
        | Some (PList _), Some (PDict _), Some (PStr _) => true
        | _, _, _ => false
        end
      else if String.eqb s "error" then
        match field r "error", field r "failed_at" with
        | Some (PStr _), Some (PStr _) => true
        | _, _ => false
        end
      else false
  | _, _ => false
  end.

(** The names of the phases recorded in a list of phase records. *)
Definition phase_names (records : list pyval) : list (option pyval) :=
  map (fun r => field r "phase") records.

Definition phase_statuses (records : list pyval) : list (option pyval) :=
  map (fun r => field r "status") records.

(** Faults of the environment that [except Exception] can catch: every
    failure raised by a sleep derives from [Exception] (no
    cancellation of the task). *)
Definition sleep_failures_are_Exceptions (env : Env) : Prop :=
  forall k e, sleep_at env k = Some e -> is_Exception e = true.

(** No failure in the [n] sleeps that follow state [st]. *)
Definition no_failure (env : Env) (st : State) (n : nat) : Prop :=
  forall k, (k < n)%nat -> sleep_at env (n_sleep st + k) = None.

(** The first failure among the sleeps that follow [st] is at offset
    [j], and raises [e]. *)
Definition first_failure (env : Env) (st : State) (j : nat) (e : pyexn) : Prop :=
  no_failure env st j /\ sleep_at env (n_sleep st + j) = Some e.

(** The state after [nows] more clock reads and [sleeps] more sleeps. *)
Definition advance (st : State) (nows sleeps : nat) : State :=
  mk_state (processing_stats st) (config st) (n_now st + nows)
    (n_sleep st + sleeps) (sent st).

(** The records of the phases [ps] when the clock is read for the
    [k]-th time at the first of them. *)
Fixpoint phase_records (env : Env) (ps : list string) (k : nat) : list pyval :=
  match ps with
  | [] => []
  | p :: rest =>
      phase_record p (isoformat env (now_at env k))
      :: phase_records env rest (S k)
  end.

(** ** A decoder for a fragment of JSON

    [json.loads] is library code.  The general theorems hold for any
    decoder; the scenarios need one that runs.  This one covers
    whitespace, [null], [true], [false], integers, strings with the
    one-letter escapes, arrays and objects, which is enough for the
    bodies of the scenarios, and the three literals [NaN], [Infinity]
    and [-Infinity] that [json.loads] accepts beyond JSON.  Numbers
    with a fraction or an exponent and [\u] escapes are outside the
    fragment and rejected. *)

Definition dquote : ascii := "034"%char.

Definition quoted (s : string) : string :=
  String dquote (s ++ String dquote EmptyString).

Definition decode_error (msg : string) : pyexn := mk_exn JSONDecodeError msg.

Definition is_ws (c : ascii) : bool :=
  let n := nat_of_ascii c in
  (n =? 32)%nat || (n =? 9)%nat || (n =? 10)%nat || (n =? 13)%nat.

Fixpoint skip_ws (s : string) : string :=
  match s with
  | String c r => if is_ws c then skip_ws r else s
  | EmptyString => s
  end.

(** [expect c s]: the rest of [s] after a leading [c]. *)
Definition expect (c : ascii) (s : string) : option string :=
  match s with
  | String x r => if (x =? c)%char then Some r else None
  | EmptyString => None
  end.

Fixpoint strip_prefix (p s : string) : option string :=
  match p with
  | EmptyString => Some s
  | String a p' =>
      match s with
      | String b s' => if (a =? b)%char then strip_prefix p' s' else None
      | EmptyString => None
      end
  end.

Definition unescape (c : ascii) : option ascii :=
  if (c =? dquote)%char then Some dquote
  else if (c =? "\")%char then Some "\"%char
  else if (c =? "/")%char then Some "/"%char
  else if (c =? "b")%char then Some "008"%char
  else if (c =? "f")%char then Some "012"%char
  else if (c =? "n")%char then Some "010"%char
  else if (c =? "r")%char then Some "013"%char
  else if (c =? "t")%char then Some "009"%char
  else None.

(** The text of a string literal after its opening quote, and what
    follows the closing quote. *)
Fixpoint scan_string (s : string) : option (string * string) :=
  match s with
  | EmptyString => None
  | String c r =>
      if (c =? dquote)%char then Some (EmptyString, r)
      else if (c =? "\")%char then
        match r with
        | String x r' =>
            match unescape x, scan_string r' with
            | Some y, Some (t, rest) => Some (String y t, rest)
            | _, _ => None
            end
        | EmptyString => None
        end
      else if (nat_of_ascii c <? 32)%nat then None
      else
        match scan_string r with
        | Some (t, rest) => Some (String c t, rest)
        | None => None
        end
  end.

Definition digit_of (c : ascii) : option Z :=
  let n := nat_of_ascii c in
  if ((48 <=? n) && (n <=? 57))%nat then Some (Z.of_nat (n - 48)) else None.

Fixpoint scan_digits (s : string) (acc : Z) : Z * string :=
  match s with
  | String c r =>
      match digit_of c with
      | Some d => scan_digits r (10 * acc + d)
      | None => (acc, s)
      end
  | EmptyString => (acc, s)
  end.

(** [0] or a non-zero digit followed by digits *)
Definition scan_int (s : string) : option (Z * string) :=
  match s with
  | String c r =>
      match digit_of c with
      | Some 0 => Some (0, r)
      | Some d => Some (scan_digits r d)
      | None => None
      end
  | EmptyString => None
  end.

Definition scan_number (s : string) : option (Z * string) :=
  match expect "-" s with
  | Some r =>
      match scan_int r with
      | Some (n, rest) => Some (- n, rest)
      | None => None
      end
  | None => scan_int s
  end.

(** What [int] raises on a numeral of more than
    [default_max_str_digits] digits. *)
Definition too_many_digits (n : Z) : pyexn :=
  mk_exn ValueError
    ("Exceeds the limit (4300 digits) for integer string conversion: value has "
     ++ NilZero.string_of_uint
          (Nat.to_uint
             (String.length (NilZero.string_of_int (Z.to_int (Z.abs n)))))
     ++ " digits; use sys.set_int_max_str_digits() to increase the limit").

Definition continues_as_float (s : string) : bool :=
  match s with
  | String c _ => ((c =? ".") || (c =? "e") || (c =? "E"))%char
  | EmptyString => false
  end.

Fixpoint parse_value (fuel : nat) (s : string) : pyexn + (pyval * string) :=
  match fuel with
  | O => inl (decode_error "nesting too deep")
  | S fuel' =>
      match s with
      | EmptyString => inl (decode_error "Expecting value")
      | String c r =>
          if (c =? dquote)%char then
            match scan_string r with
            | Some (t, rest) => inr (PStr t, rest)
            | None => inl (decode_error "Invalid or unterminated string")
            end
          else if (c =? "{")%char then
            match expect "}" (skip_ws r) with
            | Some rest => inr (PDict [], rest)
            | None => parse_members fuel' (skip_ws r) []
            end
          else if (c =? "[")%char then
            match expect "]" (skip_ws r) with
            | Some rest => inr (PList [], rest)
            | None => parse_elements fuel' (skip_ws r) []
            end
          else
            match strip_prefix "null" s, strip_prefix "true" s,
                  strip_prefix "false" s, scan_number s with
            | Some rest, _, _, _ => inr (PNone, rest)
            | _, Some rest, _, _ => inr (PBool true, rest)
            | _, _, Some rest, _ => inr (PBool false, rest)
            | _, _, _, Some (n, rest) =>
                if continues_as_float rest
                then inl (decode_error "number outside the fragment")
                else if Z.abs n <? 10 ^ default_max_str_digits
                then inr (PInt n, rest)
                else inl (too_many_digits n)
            | _, _, _, None =>
                match strip_prefix "NaN" s, strip_prefix "Infinity" s,
                      strip_prefix "-Infinity" s with
                | Some rest, _, _ => inr (PNonFinite NaN, rest)
                | _, Some rest, _ => inr (PNonFinite PosInfinity, rest)
                | _, _, Some rest => inr (PNonFinite NegInfinity, rest)
                | None, None, None => inl (decode_error "Expecting value")
                end
            end
      end
  end
with parse_elements (fuel : nat) (s : string) (acc : list pyval)
  : pyexn + (pyval * string) :=
  match fuel with
  | O => inl (decode_error "nesting too deep")
  | S fuel' =>
      match parse_value fuel' s with
      | inl e => inl e
      | inr (v, rest) =>
          match expect "," (skip_ws rest), expect "]" (skip_ws rest) with
          | Some rest', _ => parse_elements fuel' (skip_ws rest') (acc ++ [v])
          | _, Some rest' => inr (PList (acc ++ [v]), rest')
          | None, None => inl (decode_error "Expecting ',' delimiter")
          end
      end
  end
with parse_members (fuel : nat) (s : string) (acc : dict)
  : pyexn + (pyval * string) :=
  match fuel with
  | O => inl (decode_error "nesting too deep")
  | S fuel' =>
      match expect dquote s with
      | None =>
          inl (decode_error "Expecting property name enclosed in double quotes")
      | Some r =>
          match scan_string r with
          | None => inl (decode_error "Invalid or unterminated string")
          | Some (key, rest) =>
              match expect ":" (skip_ws rest) with
              | None => inl (decode_error "Expecting ':' delimiter")
              | Some rest1 =>
                  match parse_value fuel' (skip_ws rest1) with
                  | inl e => inl e
                  | inr (v, rest2) =>
                      match expect "," (skip_ws rest2),
                            expect "}" (skip_ws rest2) with
                      | Some rest3, _ =>
                          parse_members fuel' (skip_ws rest3)
                            (dict_set acc key v)
                      | _, Some rest3 =>
                          inr (PDict (dict_set acc key v), rest3)
                      | None, None =>
                          inl (decode_error "Expecting ',' delimiter")
                      end
                  end
              end
          end
      end
  end.

Definition loads_fragment (s : string) : pyexn + pyval :=
  match parse_value (2 * String.length s + 2) (skip_ws s) with
  | inl e => inl e
  | inr (v, rest) =>
      match skip_ws rest with
      | EmptyString => inr v
      | String _ _ => inl (decode_error "Extra data")
      end
  end.

(** ** Concrete environments and requests for the scenarios *)

(** A stand-in for [isoformat]: the decimal numeral of the instant. *)
Definition iso_decimal (t : Z) : string :=
  NilZero.string_of_int (Z.to_int t).

(** An environment whose clock advances two seconds per read, with no
    environment variable set, given sleep and network behaviours. *)
Definition scenario_env (sleeps : nat -> option pyexn)
  (http : nat -> HttpRequest -> http_outcome) : Env :=
  mk_env (fun _ => None)
    (fun k => 1700000000000000 + 2000000 * Z.of_nat k)
    iso_decimal sleeps http loads_fragment default_max_str_digits 1000.

(** Nothing fails; every HTTP call answers 200. *)
Definition calm_env : Env :=
  scenario_env (fun _ => None) (fun _ _ => HttpStatus 200).

Definition boom : pyexn := mk_exn RuntimeError "boom".

(** The sleep of index [j] raises [e]; nothing else fails. *)
Definition failing_env (j : nat) (e : pyexn) : Env :=
  scenario_env (fun k => if (k =? j)%nat then Some e else None)
    (fun _ _ => HttpStatus 200).

Definition blank_state : State :=
  mk_state (mk_stats 0 0 0) (mk_config None None None None None None None)
    0 0 [].

(** The state right after [orchestrator = EstudoOrchestrator()]. *)
Definition fresh_state (env : Env) : State :=
  snd (EstudoOrchestrator_init env blank_state).

(** The body [{"id":"s-1","title":"T"}] *)
Definition body_s1 : string :=
  "{" ++ quoted "id" ++ ":" ++ quoted "s-1" ++ ","
      ++ quoted "title" ++ ":" ++ quoted "T" ++ "}".

(** The ten-byte body ["not json"], quotes included: a JSON string *)
Definition body_quoted_not_json : string := quoted "not json".

(** The eight-byte body [not json] *)
Definition body_not_json : string := "not json".

(** The keys of a dict value, in insertion order. *)
Definition keys_of (v : pyval) : list string :=
  match v with
  | PDict d => dict_keys d
  | _ => []
  end.

(** The entry [test_apis] stores for a provider, from what its one
    HTTP call did. *)
Definition entry_of (o : http_outcome) (response_time : string) : pyval :=
  match o with
  | HttpStatus code => probe_entry code response_time
  | HttpRaises e => probe_error e
  end.

(** Failures of the network that [except Exception] can catch:
    connection errors, timeouts, invalid URLs (no cancellation of the
    task). *)
Definition probe_failures_are_Exceptions (env : Env) : Prop :=
  forall k req e, http_at env k req = HttpRaises e -> is_Exception e = true.

(** Every HTTP call answers [code]; nothing else fails. *)
Definition answering_env (code : Z) : Env :=
  scenario_env (fun _ => None) (fun _ _ => HttpStatus code).

(** The first HTTP call raises [e], the others answer 200. *)
Definition unreachable_env (e : pyexn) : Env :=
  scenario_env (fun _ => None)
    (fun k _ => if (k =? 0)%nat then HttpRaises e else HttpStatus 200).

Definition connection_refused : pyexn :=
  mk_exn ClientConnectorError "Cannot connect to host api.openai.com:443".

(** What one step of the scheduler may do to a coroutine [t] and to the
    counters: nothing that shows, or finish it with a completed result
    and one more completed study, or finish it with an error result and
    one more failed study. *)
Definition step_ok (t : Task) (st : State) (t' : Task) (st' : State) : Prop :=
  (finished [t'] = finished [t] /\
   processing_stats st' = processing_stats st)
  \/
  (finished [t] = [] /\
   exists r,
     t' = Done (Returned r) /\
     ((has_status "completed" (Returned r) = true /\
       has_status "error" (Returned r) = false /\
       studies_completed (processing_stats st') =
         studies_completed (processing_stats st) + 1 /\
       studies_failed (processing_stats st') =
         studies_failed (processing_stats st))
      \/
      (has_status "completed" (Returned r) = false /\
       has_status "error" (Returned r) = true /\
       studies_completed (processing_stats st') =
         studies_completed (processing_stats st) /\
       studies_failed (processing_stats st') =
         studies_failed (processing_stats st) + 1))).

(** The counters count the finished coroutines: [c0] and [f0] being
    the counters at the start, each finished coroutine has a completed
    or an error result and is counted once. *)
Definition counted (c0 f0 : Z) (pool : list Task) (st : State) : Prop :=
  studies_completed (processing_stats st) =
    c0 + count_status "completed" (finished pool) /\
  studies_failed (processing_stats st) =
    f0 + count_status "error" (finished pool) /\
  count_status "completed" (finished pool)
  + count_status "error" (finished pool) =
    Z.of_nat (List.length (finished pool)).

(** ** The rest of the server: the dashboard, the routes, [main] *)

(** What the rest of [main.py] asks of the world outside: [int] on a
    string, [runner.setup()] and [site.start()] on a port ([None] when
    the site listens), [str] on a [timedelta] given in microseconds,
    and whether a cancellation of the main task comes from a keyboard
    interrupt, as [asyncio.run] keeps track of it. *)
Record Host : Type := mk_host {
  py_int : string -> pyexn + Z;
  start_site : Z -> option pyexn;
  str_timedelta : Z -> string;
  interrupted : bool
}.

(** [str(n)] for an int *)
Definition str_int (n : Z) : string := NilZero.string_of_int (Z.to_int n).

Definition nl : string := String "010"%char EmptyString.

Definition q : string := String dquote EmptyString.

(** The page of [dashboard] up to the first value it interpolates. *)
Definition dashboard_head : string :=
  String.concat nl
    [ "";
      "    <!DOCTYPE html>";
      "    <html>";
      "    <head>";
      "        <title>🚀 Esteira de Produção Inteligente</title>";
      "        <meta charset=" ++ q ++ "utf-8" ++ q ++ ">";
      "        <style>";
      "            body { font-family: Arial, sans-serif; margin: 40px; background: #f5f5f5; }";
      "            .container { max-width: 800px; margin: 0 auto; background: white; padding: 30px; border-radius: 10px; }";
      "            h1 { color: #2c5aa0; }";
      "            .stats { background: #e7f3ff; padding: 20px; border-radius: 5px; margin: 20px 0; }";
      "            .btn { background: #4CAF50; color: white; padding: 10px 20px; border: none; border-radius: 5px; cursor: pointer; margin: 5px; }";
      "            .btn:hover { background: #45a049; }";
      "            .status { padding: 10px; margin: 10px 0; border-radius: 5px; }";
      "            .success { background: #d4edda; color: #155724; }";
      "            .error { background: #f8d7da; color: #721c24; }";
      "        </style>";
      "    </head>";
      "    <body>";
      "        <div class=" ++ q ++ "container" ++ q ++ ">";
      "            <h1>🚀 Esteira de Produção Inteligente</h1>";
      "            <p><strong>Status:</strong> Sistema Online e Operacional</p>";
      "            ";
      "            <div class=" ++ q ++ "stats" ++ q ++ ">";
      "                <h3>📊 Estatísticas</h3>";
      "                <p><strong>Estudos Processados:</strong> " ].

(** The text between the two counters. *)
Definition dashboard_between_counters : string :=
  String.concat nl
    [ "</p>";
      "                <p><strong>Estudos com Erro:</strong> " ].

(** The text between the second counter and the uptime. *)
Definition dashboard_before_uptime : string :=
  String.concat nl
    [ "</p>";
      "                <p><strong>Uptime:</strong> " ].

(** The rest of the page: the buttons, the usage notes and the script. *)
Definition dashboard_tail : string :=
  String.concat nl
    [ "</p>";
      "            </div>";
      "            ";
      "            <h3>🧪 Testes</h3>";
      "            <button class=" ++ q ++ "btn" ++ q ++ " onclick=" ++ q ++ "testApis()" ++ q ++ ">Testar APIs</button>";
      "            <button class=" ++ q ++ "btn" ++ q ++ " onclick=" ++ q ++ "processDemo()" ++ q ++ ">Processar Estudo Demo</button>";
      "            ";
      "            <div id=" ++ q ++ "results" ++ q ++ "></div>";
      "            ";
      "            <h3>📋 Como Usar</h3>";
      "            <p><strong>Endpoint para processar estudo:</strong></p>";
      "            <code>POST /process</code>";
      "            <pre>{";
      "  " ++ q ++ "id" ++ q ++ ": " ++ q ++ "study-001" ++ q ++ ",";
      "  " ++ q ++ "title" ++ q ++ ": " ++ q ++ "Análise de Viabilidade" ++ q ++ ",";
      "  " ++ q ++ "client" ++ q ++ ": " ++ q ++ "Nome do Cliente" ++ q;
      "}</pre>";
      "            ";
      "            <h3>🔧 Configuração</h3>";
      "            <p>Sistema configurado com:</p>";
      "            <ul>";
      "                <li>✅ OpenAI GPT-4</li>";
      "                <li>✅ Anthropic Claude</li>";
      "                <li>✅ Google Gemini</li>";
      "                <li>✅ Cohere Command R+</li>";
      "                <li>✅ Mistral Large</li>";
      "                <li>✅ Supabase Database</li>";
      "            </ul>";
      "        </div>";
      "        ";
      "        <script>";
      "            async function testApis() {";
      "                document.getElementById('results').innerHTML = '<p>🔄 Testando APIs...</p>';";
      "                try {";
      "                    const response = await fetch('/api-status');";
      "                    const data = await response.json();";
      "                    let html = '<h4>Resultados dos Testes:</h4>';";
      "                    ";
      "                    for (const [api, result] of Object.entries(data.apis)) {";
      "                        const statusClass = result.status === 'ok' ? 'success' : 'error';";
      "                        html += `<div class=" ++ q ++ "status ${statusClass}" ++ q ++ ">";
      "                            <strong>${api}:</strong> ${result.status} ";
      "                            ${result.response_time ? '(' + result.response_time + ')' : ''}";
      "                        </div>`;";
      "                    }";
      "                    ";
      "                    document.getElementById('results').innerHTML = html;";
      "                } catch (error) {";
      "                    document.getElementById('results').innerHTML = `<div class=" ++ q ++ "status error" ++ q ++ ">Erro: ${error}</div>`;";
      "                }";
      "            }";
      "            ";
      "            async function processDemo() {";
      "                document.getElementById('results').innerHTML = '<p>🔄 Processando estudo demo...</p>';";
      "                try {";
      "                    const response = await fetch('/process', {";
      "                        method: 'POST',";
      "                        headers: {'Content-Type': 'application/json'},";
      "                        body: JSON.stringify({";
      "                            id: 'demo-' + Date.now(),";
      "                            title: 'Estudo de Demonstração',";
      "                            client: 'Cliente Demo'";
      "                        })";
      "                    });";
      "                    const data = await response.json();";
      "                    ";
      "                    let html = '<h4>Resultado do Processamento:</h4>';";
      "                    html += `<div class=" ++ q ++ "status success" ++ q ++ ">";
      "                        <strong>Status:</strong> ${data.status}<br>";
      "                        <strong>ID:</strong> ${data.study_id}<br>`;";
      "                    ";
      "                    if (data.final_content) {";
      "                        html += `<strong>Palavras:</strong> ${data.final_content.words}<br>";
      "                        <strong>Capítulos:</strong> ${data.final_content.chapters}<br>";
      "                        <strong>Custo:</strong> $USD ${data.final_content.cost_usd}`;";
      "                    }";
      "                    ";
      "                    html += '</div>';";
      "                    document.getElementById('results').innerHTML = html;";
      "                } catch (error) {";
      "                    document.getElementById('results').innerHTML = `<div class=" ++ q ++ "status error" ++ q ++ ">Erro: ${error}</div>`;";
      "                }";
      "            }";
      "        </script>";
      "    </body>";
      "    </html>";
      "    " ].

(** The f-string of [dashboard], as a function of the three values it
    interpolates. *)
Definition dashboard_html (completed failed uptime : string) : string :=
  dashboard_head ++ completed ++ dashboard_between_counters ++ failed
  ++ dashboard_before_uptime ++ uptime ++ dashboard_tail.

(** [web.Response(text=..., content_type=...)] *)
Record TextResponse : Type := mk_text_response {
  text_status : Z;
  text_content_type : string;
  text_body : string
}.

(** [dashboard].  The counters it writes into the page are those of
    [processing_stats], which start at 0 and go up by one per study:
    their numerals are written in full. *)
Definition dashboard (host : Host) (env : Env) (request : Request)
  : M TextResponse :=
  stats <- get_stats ;;
  now <- datetime_now env ;;
  let html :=
    dashboard_html (str_int (studies_completed stats))
      (str_int (studies_failed stats))
      (str_timedelta host (now - uptime_start stats)) in
  ret (mk_text_response 200 "text/html" html).

(** The method of an incoming request. *)
Inductive verb : Type := VGet | VHead | VPost | VOther.

Definition verb_eqb (a b : verb) : bool :=
  match a, b with
  | VGet, VGet | VHead, VHead | VPost, VPost | VOther, VOther => true
  | _, _ => false
  end.

(** The four handlers of the module. *)
Inductive handler : Type :=
| h_dashboard
| h_health_check
| h_api_status
| h_process_study_endpoint.

Definition router : Type := list (verb * string * handler).

(** [app.router.add_get(path, h)]: the route answers [GET] and, as
    aiohttp adds by default, [HEAD]. *)
Definition add_get (path : string) (h : handler) (r : router) : router :=
  (r ++ [(VGet, path, h); (VHead, path, h)])%list.

(** [app.router.add_post(path, h)] *)
Definition add_post (path : string) (h : handler) (r : router) : router :=
  (r ++ [(VPost, path, h)])%list.

(** [create_app] *)
Definition create_app : router :=
  add_post "/process" h_process_study_endpoint
    (add_get "/api-status" h_api_status
       (add_get "/health" h_health_check
          (add_get "/" h_dashboard []))).

Inductive resolution : Type :=
| Found (h : handler)
| MethodNotAllowed
| NotFound.

(** How the router resolves a request: the first route with the path
    and the method; 405 when the path has routes for other methods
    only, 404 when it has none. *)
Fixpoint resolve (r : router) (v : verb) (path : string) : resolution :=
  match r with
  | [] => NotFound
  | (v', path', h) :: rest =>
      if String.eqb path' path then
        if verb_eqb v' v then Found h
        else match resolve rest v path with
             | Found h' => Found h'
             | _ => MethodNotAllowed
             end
      else resolve rest v path
  end.

(** The status of the answer to a handler that returns a text. *)
Definition served_text_status (o : outcome TextResponse) : option Z :=
  match o with
  | Returned r => Some (text_status r)
  | Raised e => if is_Exception e then Some 500 else None
  end.

Definition run_handler (host : Host) (env : Env) (h : handler)
  (request : Request) (st : State) : option Z * State :=
  match h with
  | h_dashboard =>
      let (o, st') := dashboard host env request st in
      (served_text_status o, st')
  | h_health_check =>
      let (o, st') := health_check env request st in (served_status o, st')
  | h_api_status =>
      let (o, st') := api_status env request st in (served_status o, st')
  | h_process_study_endpoint =>
      let (o, st') := process_study_endpoint env request st in
      (served_status o, st')
  end.

(** One request served by the application of [create_app]: the status
    answered, if any, and the state afterwards. *)
Definition serve (host : Host) (env : Env) (v : verb) (path : string)
  (request : Request) (st : State) : option Z * State :=
  match resolve create_app v path with
  | Found h => run_handler host env h request st
  | MethodNotAllowed => (Some 405, st)
  | NotFound => (Some 404, st)
  end.

(** A program that may still be running. *)
Inductive progress (A : Type) : Type :=
| Stopped (o : outcome A)
| Running.
Arguments Stopped {A} o.
Arguments Running {A}.

(** [while True: await asyncio.sleep(1)], for [n] iterations. *)
Fixpoint keep_alive (env : Env) (n : nat) (st : State)
  : progress unit * State :=
  match n with
  | O => (Running, st)
  | S n' =>
      match asyncio_sleep env 1 st with
      | (Returned _, st') => keep_alive env n' st'
      | (Raised e, st') => (Stopped (Raised e), st')
      end
  end.

(** [int(os.getenv('PORT', 8000))] *)
Definition read_port (host : Host) (env : Env) : outcome Z :=
  match getenv env "PORT" with
  | None => Returned 8000
  | Some s =>
      match py_int host s with
      | inr port => Returned port
      | inl e => Raised e
      end
  end.

(** [except Exception as e: logger.error(...); raise]: what was raised
    is raised again, logged or not. *)
Definition log_and_reraise {A} (r : progress A) : progress A :=
  match r with
  | Stopped (Raised e) =>
      if is_Exception e then Stopped (Raised e) else Stopped (Raised e)
  | _ => r
  end.

(** [main], its loop run for [n] iterations; the port is logged
    before the application is created and after the site has
    started. *)
Definition main (host : Host) (env : Env) (n : nat) (st : State)
  : progress unit * State :=
  let (r, st') :=
    match read_port host env with
    | Raised e => (Stopped (Raised e), st)
    | Returned port =>
        match str_error env (PInt port) with
        | Some e => (Stopped (Raised e), st)
        | None =>
            let app := create_app in
            match start_site host port with
            | Some e => (Stopped (Raised e), st)
            | None => keep_alive env n st
            end
        end
    end in
  (log_and_reraise r, st').

(** [asyncio.run(main())]: what [main] raises is raised again, except
    that the cancellation of the main task by a keyboard interrupt
    comes out as [KeyboardInterrupt]. *)
Definition asyncio_run {A} (host : Host) (r : progress A) : progress A :=
  match r with
  | Stopped (Raised e) =>
      match exn_cls e with
      | CancelledError =>
          if interrupted host
          then Stopped (Raised (mk_exn KeyboardInterrupt ""))
          else r
      | _ => r
      end
  | _ => r
  end.

Inductive exit : Type :=
| Exits (code : Z)
| Propagates (e : pyexn)
| StillRunning.

(** The block under [if __name__ == "__main__"]. *)
Definition dunder_main (host : Host) (env : Env) (n : nat) (st : State)
  : exit * State :=
  let (r, st') := main host env n st in
  (match asyncio_run host r with
   | Running => StillRunning
   | Stopped (Returned _) => Exits 0
   | Stopped (Raised e) =>
       match exn_cls e with
       | KeyboardInterrupt => Exits 0
       | _ => if is_Exception e then Exits 1 else Propagates e
       end
   end, st').

(** [s] without its leading white space, as [int] skips it in a string
    of ASCII characters: tab to carriage return, and the space. *)
Fixpoint lstrip (s : string) : string :=
  match s with
  | String c r =>
      let n := nat_of_ascii c in
      if ((9 <=? n) && (n <=? 13) || (n =? 32))%nat
      then lstrip r else s
  | EmptyString => s
  end.

(** The digits of an [int] literal, single underscores allowed between
    them: the value, the number of digits, and what follows. *)
Fixpoint scan_int_digits (s : string) (acc : Z) (count : nat)
  : Z * nat * string :=
  match s with
  | String c r =>
      match digit_of c with
      | Some d => scan_int_digits r (10 * acc + d) (S count)
      | None =>
          match count, r with
          | S _, String c' _ =>
              if ((c =? "_")%char && match digit_of c' with
                                     | Some _ => true
                                     | None => false
                                     end)
              then scan_int_digits r acc count
              else (acc, count, s)
          | _, _ => (acc, count, s)
          end
      end
  | EmptyString => (acc, count, s)
  end.

Fixpoint has_char (c : ascii) (s : string) : bool :=
  match s with
  | String c' r => (c =? c')%char || has_char c r
  | EmptyString => false
  end.

Definition hex_digit (n : nat) : ascii :=
  nth n [ "0"; "1"; "2"; "3"; "4"; "5"; "6"; "7"; "8"; "9";
          "a"; "b"; "c"; "d"; "e"; "f" ]%char "0"%char.

(** One character of a string as [repr] writes it between [quote]s. *)
Definition repr_char (quote c : ascii) : string :=
  let n := nat_of_ascii c in
  if (c =? "\")%char then "\\"
  else if (c =? quote)%char then String "\" (String quote EmptyString)
  else if (n =? 9)%nat then "\t"
  else if (n =? 10)%nat then "\n"
  else if (n =? 13)%nat then "\r"
  else if ((n <? 32) || (n =? 127))%nat
  then String "\" (String "x" (String (hex_digit (n / 16))
                                 (String (hex_digit (n mod 16)) EmptyString)))
  else String c EmptyString.

Fixpoint repr_chars (quote : ascii) (s : string) : string :=
  match s with
  | String c r => repr_char quote c ++ repr_chars quote r
  | EmptyString => EmptyString
  end.

(** [repr(s)] for a string: between single quotes, or between double
    quotes when it holds a single quote and no double one.  A byte
    beyond ASCII is taken as part of a printable character. *)
Definition repr_str (s : string) : string :=
  let quote :=
    if has_char "'" s && negb (has_char dquote s) then dquote else "'"%char in
  String quote (repr_chars quote s) ++ String quote EmptyString.

(** What [int] raises on a string that is no numeral: the message
    quotes the string, up to 200 characters of its [repr]. *)
Definition invalid_literal (s : string) : pyexn :=
  mk_exn ValueError
    ("invalid literal for int() with base 10: "
     ++ substring 0 200 (repr_str s)).

(** [int(s)] on a string of ASCII characters: white space around, a
    sign, decimal digits. *)
Definition int_of_string (s : string) : pyexn + Z :=
  let body := lstrip s in
  let (negative, digits) :=
    match expect "-" body, expect "+" body with
    | Some r, _ => (true, r)
    | _, Some r => (false, r)
    | None, None => (false, body)
    end in
  match scan_int_digits digits 0 0 with
  | (_, O, _) => inl (invalid_literal s)
  | (n, S k, rest) =>
      match lstrip rest with
      | EmptyString =>
          if (Z.of_nat (S k) <=? default_max_str_digits)
          then inr (if negative : bool then - n else n)
          else inl (too_many_digits (10 ^ Z.of_nat k))
      | String _ _ => inl (invalid_literal s)
      end
  end.

(** [n] written on at least [width] digits. *)
Definition zero_padded (width : nat) (n : Z) : string :=
  let s := str_int n in
  (fix zeros (k : nat) : string :=
     match k with
     | O => s
     | S k' => String "0" (zeros k')
     end) (width - String.length s)%nat.

(** [str(delta)] for a [timedelta] of [t] microseconds, which the
    object holds as days, seconds of the day and microseconds of the
    second, the last two never negative. *)
Definition str_of_timedelta (t : Z) : string :=
  let days := t / 86400000000 in
  let seconds := (t mod 86400000000) / 1000000 in
  let microseconds := t mod 1000000 in
  (if days =? 0 then ""
   else str_int days ++ " day" ++ (if Z.abs days =? 1 then "" else "s")
        ++ ", ")
  ++ str_int (seconds / 3600) ++ ":"
  ++ zero_padded 2 ((seconds / 60) mod 60) ++ ":"
  ++ zero_padded 2 (seconds mod 60)
  ++ (if microseconds =? 0 then "" else "." ++ zero_padded 6 microseconds).

(** A host on which ports are free, [int] and [str] are those of the
    interpreter on ASCII strings, and a cancellation of the main task
    is the work of Ctrl-C. *)
Definition easy_host : Host :=
  mk_host int_of_string (fun _ => None) str_of_timedelta true.

(** ** What a computation leaves alone *)

(** [m] relates every state to the state it leaves, by [R]. *)
Definition keeps {A : Type} (R : State -> State -> Prop) (m : M A) : Prop :=
  forall st, R st (snd (m st)).

(** The orchestrator is as it was: counters, start time and
    configuration. *)
Definition same_orchestrator (st st' : State) : Prop :=
  processing_stats st' = processing_stats st /\ config st' = config st.

(** The configuration, the start time and the HTTP calls made are as
    they were, and no counter went down. *)
Definition only_counts_up (st st' : State) : Prop :=
  config st' = config st /\
  sent st' = sent st /\
  uptime_start (processing_stats st') = uptime_start (processing_stats st) /\
  studies_completed (processing_stats st)
    <= studies_completed (processing_stats st') /\
  studies_failed (processing_stats st) <= studies_failed (processing_stats st').

(** A cancellation, as [asyncio.sleep] raises it. *)
Definition cancelled : pyexn := mk_exn CancelledError "".

(** The first HTTP call is cut short by a cancellation. *)
Definition interrupted_env : Env :=
  scenario_env (fun _ => None)
    (fun k _ => if (k =? 0)%nat then HttpRaises cancelled else HttpStatus 200).


(** Ctrl-C *)
Definition keyboard_interrupt : pyexn := mk_exn KeyboardInterrupt "".

(** The id [process_study] takes from a dict. *)
Definition id_of (d : dict) : pyval := get_default d "id" (PStr "demo-001").

(** Every request of [evs] carries an id that [str] can render. *)
Definition calls_render (env : Env) (evs : list event) : Prop :=
  Forall (fun ev => match ev with
                    | Call d => renders env (id_of d) = true
                    | Wake _ => True
                    end) evs.

(** The id of a suspended coroutine has been rendered when it was
    called. *)
Definition task_renders (env : Env) (t : Task) : Prop :=
  match t with
  | Sleeping _ study_id _ _ => renders env study_id = true
  | Done _ => True
  end.

(** A dict whose id is an int of 5001 digits. *)
Definition long_id : dict := [("id", PInt (10 ^ 5000))].

(** [n] lists around an empty one. *)
Fixpoint nested (n : nat) : pyval :=
  match n with
  | O => PList []
  | S k => PList [nested k]
  end.

(** A dict whose id is nested deeper than [repr] descends. *)
Definition deep_id : dict := [("id", nested 1001)].

(** An environment in which [PORT] is set to [s] and nothing fails. *)
Definition port_env (s : string) : Env :=
  mk_env (fun name => if String.eqb name "PORT" then Some s else None)
    (fun k => 1700000000000000 + 2000000 * Z.of_nat k)
    iso_decimal (fun _ => None) (fun _ _ => HttpStatus 200) loads_fragment
    default_max_str_digits 1000.

(** * Properties *)

(** ** The monad and the environment *)

(** *** What [str] renders *)

Lemma renders_None env v : renders env v = true -> str_error env v = None.
Proof. unfold renders. now destruct (str_error env v). Qed.

Lemma renders_false env v :
  renders env v = false -> exists e, str_error env v = Some e.
Proof.
  unfold renders. destruct (str_error env v) as [e|]; [|discriminate].
  intros _. now exists e.
Qed.

Lemma not_renders env v e : str_error env v = Some e -> renders env v = false.
Proof. intros H. unfold renders. now rewrite H. Qed.

Lemma render_ok env v : str_error env v = None -> render env v = ret tt.
Proof. intros H. unfold render. now rewrite H. Qed.

Lemma render_raises env v e :
  str_error env v = Some e -> render env v = raise e.
Proof. intros H. unfold render. now rewrite H. Qed.

(** What [str] raises is an [Exception]. *)
Lemma str_error_is_Exception env v e :
  str_error env v = Some e -> is_Exception e = true.
Proof.
  unfold str_error.
  destruct (repr_failure env v (repr_depth env)) as [[limit|]|];
    cbn [option_map]; intros H; inversion H; reflexivity.
Qed.

(** A string renders, whatever the limits; so does an int of at most
    640 digits. *)
Lemma str_renders env s : renders env (PStr s) = true.
Proof. reflexivity. Qed.

Lemma small_int_renders env n :
  Z.abs n < 10 ^ str_digits_check_threshold ->
  str_error env (PInt n) = None.
Proof.
  intros H. unfold str_error. cbn [repr_failure]. unfold int_failure, digits_limit.
  destruct (max_str_digits env <=? 0); [reflexivity|].
  assert (Hle : 10 ^ str_digits_check_threshold
                <= 10 ^ (Z.max str_digits_check_threshold (max_str_digits env))).
  { apply Z.pow_le_mono_r; [lia|]. apply Z.le_max_l. }
  assert (Hlt : (Z.abs n
                 <? 10 ^ (Z.max str_digits_check_threshold (max_str_digits env)))
                = true) by (apply Z.ltb_lt; lia).
  rewrite Hlt. reflexivity.
Qed.

(** *** The state *)

Lemma advance_0_0 st : advance st 0 0 = st.
Proof.
  destruct st; unfold advance; cbn. now rewrite !Nat.add_0_r.
Qed.

Lemma no_failure_S env st n :
  no_failure env st (S n) ->
  sleep_at env (n_sleep st) = None /\ no_failure env (advance st 1 1) n.
Proof.
  intros H. split.
  - specialize (H 0%nat). rewrite Nat.add_0_r in H. apply H. lia.
  - intros k Hk. cbn. replace (n_sleep st + 1 + k)%nat with (n_sleep st + S k)%nat by lia.
    apply H. lia.
Qed.

(** Either none of the next [n] sleeps fails, or there is a first one
    that does. *)
Lemma failure_cases env st n :
  no_failure env st n \/
  exists j e, (j < n)%nat /\ first_failure env st j e.
Proof.
  induction n as [|n IH].
  - left. intros k Hk. lia.
  - destruct IH as [IH | (j & e & Hj & Hf)].
    + destruct (sleep_at env (n_sleep st + n)) as [e|] eqn:E.
      * right. exists n, e. split; [lia | split; assumption].
      * left. intros k Hk. destruct (Nat.eq_dec k n) as [->|]; [assumption|].
        apply IH. lia.
    + right. exists j, e. split; [lia | assumption].
Qed.

Lemma run_phases_no_failure env ps : forall results st,
  no_failure env st (List.length ps) ->
  run_phases env ps results st =
  (Returned (results ++ phase_records env ps (n_now st))%list,
   advance st (List.length ps) (List.length ps)).
Proof.
  induction ps as [|p ps IH]; intros results st H.
  - cbn. rewrite app_nil_r, advance_0_0. reflexivity.
  - cbn [List.length] in H. apply no_failure_S in H. destruct H as [H0 H].
    cbn [run_phases]. unfold run_phase. unfold bind at 1. unfold bind at 1.
    unfold asyncio_sleep. rewrite H0.
    unfold bind at 1. unfold now_isoformat, bind at 1, datetime_now, ret.
    cbn [n_now n_sleep processing_stats config sent].
    specialize (IH (results ++ [phase_record p (isoformat env (now_at env (n_now st)))])%list (advance st 1 1) H).
    unfold advance in IH. cbn [n_now n_sleep processing_stats config sent] in IH.
    rewrite Nat.add_1_r in IH. rewrite Nat.add_1_r in IH.
    rewrite IH. rewrite <- app_assoc. cbn [app phase_records List.length].
    unfold advance. cbn [n_now n_sleep processing_stats config sent].
    f_equal. f_equal; lia.
Qed.

Lemma first_failure_S env st j e :
  first_failure env st (S j) e ->
  sleep_at env (n_sleep st) = None /\ first_failure env (advance st 1 1) j e.
Proof.
  intros [Hn He]. apply no_failure_S in Hn. destruct Hn as [H0 Hn].
  split; [assumption|]. split; [assumption|].
  cbn. replace (n_sleep st + 1 + j)%nat with (n_sleep st + S j)%nat by lia.
  assumption.
Qed.

Lemma run_phases_failure env ps : forall results st j e,
  (j < List.length ps)%nat ->
  first_failure env st j e ->
  run_phases env ps results st = (Raised e, advance st j (S j)).
Proof.
  induction ps as [|p ps IH]; intros results st j e Hj Hf.
  - cbn in Hj. lia.
  - destruct j as [|j].
    + destruct Hf as [_ He]. rewrite Nat.add_0_r in He.
      cbn [run_phases]. unfold run_phase. unfold bind at 1. unfold bind at 1.
      unfold asyncio_sleep. rewrite He.
      unfold advance. f_equal. f_equal; lia.
    + apply first_failure_S in Hf. destruct Hf as [H0 Hf].
      cbn [List.length] in Hj.
      cbn [run_phases]. unfold run_phase. unfold bind at 1. unfold bind at 1.
    unfold asyncio_sleep. rewrite H0.
      unfold bind at 1. unfold now_isoformat, bind at 1, datetime_now, ret.
      cbn [n_now n_sleep processing_stats config sent].
      specialize (IH (results ++ [phase_record p (isoformat env (now_at env (n_now st)))])%list
                    (advance st 1 1) j e ltac:(lia) Hf).
      unfold advance in IH. cbn [n_now n_sleep processing_stats config sent] in IH.
      rewrite !Nat.add_1_r in IH. rewrite IH.
      unfold advance. cbn [n_now n_sleep processing_stats config sent].
      f_equal. f_equal; lia.
Qed.

(** ** [process_study] on a dict *)

(** With no failure in its four sleeps, [process_study] returns the
    completed result and counts one more completed study. *)
Lemma process_study_completes env d st :
  renders env (id_of d) = true ->
  no_failure env st 4 ->
  process_study env (PDict d) st =
  (Returned
     (final_result_of (get_default d "id" (PStr "demo-001"))
        (phase_records env phases (n_now st))
        (get_default d "title" (PStr "Estudo Técnico Automatizado"))
        (isoformat env (now_at env (n_now st + 4)))),
   mk_state
     (mk_stats (studies_completed (processing_stats st) + 1)
        (studies_failed (processing_stats st))
        (uptime_start (processing_stats st)))
     (config st) (n_now st + 5) (n_sleep st + 4) (sent st)).
Proof.
  intros Hr H. unfold id_of in Hr. apply renders_None in Hr.
  unfold process_study. cbn [py_get].
  unfold bind at 1. unfold ret at 1. unfold finish_study.
  rewrite !(render_ok env _ Hr). unfold try_except_Exception.
  unfold bind at 1. unfold ret at 1.
  unfold bind at 1.
  rewrite (run_phases_no_failure env phases [] st H).
  cbn [List.length phases app].
  cbv [py_get bind ret now_isoformat datetime_now incr_completed
       set_stats advance].
  cbn [n_now n_sleep processing_stats config sent].
  f_equal. f_equal; lia.
Qed.

(** When the first failing sleep raises an [Exception], [process_study]
    returns the error result and counts one more failed study. *)
Lemma process_study_fails env d st j e :
  renders env (id_of d) = true ->
  (j < 4)%nat ->
  first_failure env st j e ->
  is_Exception e = true ->
  process_study env (PDict d) st =
  (Returned
     (error_result_of (get_default d "id" (PStr "demo-001")) e
        (isoformat env (now_at env (n_now st + j)))),
   mk_state
     (mk_stats (studies_completed (processing_stats st))
        (studies_failed (processing_stats st) + 1)
        (uptime_start (processing_stats st)))
     (config st) (n_now st + j + 1) (n_sleep st + j + 1) (sent st)).
Proof.
  intros Hr Hj Hf He. unfold id_of in Hr. apply renders_None in Hr.
  unfold process_study. cbn [py_get].
  unfold bind at 1. unfold ret at 1. unfold except_study.
  rewrite !(render_ok env _ Hr). unfold try_except_Exception.
  unfold bind at 1. unfold ret at 1.
  unfold bind at 1.
  rewrite (run_phases_failure env phases [] st j e Hj Hf). rewrite He.
  cbv [bind ret now_isoformat datetime_now incr_failed set_stats advance].
  cbn [n_now n_sleep processing_stats config sent].
  f_equal. f_equal; lia.
Qed.

(** A failure that does not derive from [Exception] passes through the
    [except] clause, and no counter moves. *)
Lemma process_study_interrupted env d st j e :
  renders env (id_of d) = true ->
  (j < 4)%nat ->
  first_failure env st j e ->
  is_Exception e = false ->
  process_study env (PDict d) st = (Raised e, advance st j (S j)).
Proof.
  intros Hr Hj Hf He. unfold id_of in Hr. apply renders_None in Hr.
  unfold process_study. cbn [py_get].
  unfold bind at 1. unfold ret at 1.
  rewrite (render_ok env _ Hr). unfold try_except_Exception.
  unfold bind at 1. unfold ret at 1.
  unfold bind at 1.
  rewrite (run_phases_failure env phases [] st j e Hj Hf). rewrite He.
  reflexivity.
Qed.

(** When [str] does not render the id, the logging call that opens the
    [try] block raises, the one that opens the [except] block raises
    again, and the call raises outward having changed nothing. *)
Lemma process_study_unrendered env d st e :
  str_error env (id_of d) = Some e ->
  process_study env (PDict d) st = (Raised e, st).
Proof.
  intros Hr. pose proof (str_error_is_Exception env _ e Hr) as He.
  unfold id_of in Hr. unfold process_study. cbn [py_get].
  unfold bind at 1. unfold ret at 1. unfold except_study.
  rewrite !(render_raises env _ e Hr).
  cbv [bind ret raise try_except_Exception]. rewrite He. reflexivity.
Qed.

(** An id of 5001 digits, under the limit of 4300 the interpreter
    starts with: the call raises [ValueError] and counts nothing.  An
    id nested deeper than [repr] descends: [RecursionError]. *)
Example process_study_long_id :
  renders calm_env (id_of long_id) = false /\
  process_study calm_env (PDict long_id) (fresh_state calm_env) =
  (Raised
     (mk_exn ValueError
        "Exceeds the limit (4300 digits) for integer string conversion; use sys.set_int_max_str_digits() to increase the limit"),
   fresh_state calm_env) /\
  process_study calm_env (PDict deep_id) (fresh_state calm_env) =
  (Raised
     (mk_exn RecursionError
        "maximum recursion depth exceeded while getting the repr of an object"),
   fresh_state calm_env).
Proof.
  assert (Hlt : (Z.abs (10 ^ 5000) <? 10 ^ 4300) = false).
  { apply Z.ltb_ge. rewrite Z.abs_eq by (apply Z.pow_nonneg; lia).
    apply Z.pow_le_mono_r; lia. }
  assert (H2 : str_error calm_env (id_of long_id) =
               Some (mk_exn ValueError
                       "Exceeds the limit (4300 digits) for integer string conversion; use sys.set_int_max_str_digits() to increase the limit")).
  { change (id_of long_id) with (PInt (10 ^ 5000)).
    unfold str_error. cbn [repr_failure]. unfold int_failure.
    change (digits_limit calm_env) with (Some 4300). cbv beta iota.
    rewrite Hlt. reflexivity. }
  pose proof (not_renders calm_env (id_of long_id) _ H2) as H1.
  assert (H3 : str_error calm_env (id_of deep_id) =
               Some (mk_exn RecursionError
                       "maximum recursion depth exceeded while getting the repr of an object"))
    by (vm_compute; reflexivity).
  exact (conj H1
           (conj (process_study_unrendered calm_env long_id _ _ H2)
                 (process_study_unrendered calm_env deep_id _ _ H3))).
Qed.


Lemma no_failure_first_failure env st n j e :
  no_failure env st n -> (j < n)%nat -> first_failure env st j e -> False.
Proof.
  intros Hn Hj [_ He]. rewrite (Hn j Hj) in He. discriminate.
Qed.

(** On a dict, when the failures of the environment derive from
    [Exception], a call returns one of the two results. *)
Lemma process_study_dict_cases env d st :
  renders env (id_of d) = true ->
  sleep_failures_are_Exceptions env ->
  (no_failure env st 4 /\
   process_study env (PDict d) st =
   (Returned
      (final_result_of (get_default d "id" (PStr "demo-001"))
         (phase_records env phases (n_now st))
         (get_default d "title" (PStr "Estudo Técnico Automatizado"))
         (isoformat env (now_at env (n_now st + 4)))),
    mk_state
      (mk_stats (studies_completed (processing_stats st) + 1)
         (studies_failed (processing_stats st))
         (uptime_start (processing_stats st)))
      (config st) (n_now st + 5) (n_sleep st + 4) (sent st)))
  \/
  (exists j e,
     (j < 4)%nat /\ first_failure env st j e /\ is_Exception e = true /\
     process_study env (PDict d) st =
     (Returned
        (error_result_of (get_default d "id" (PStr "demo-001")) e
           (isoformat env (now_at env (n_now st + j)))),
      mk_state
        (mk_stats (studies_completed (processing_stats st))
           (studies_failed (processing_stats st) + 1)
           (uptime_start (processing_stats st)))
        (config st) (n_now st + j + 1) (n_sleep st + j + 1) (sent st))).
Proof.
  intros Hr Hexn.
  destruct (failure_cases env st 4) as [H | (j & e & Hj & Hf)].
  - left. split; [assumption | now apply process_study_completes].
  - right. exists j, e.
    assert (He : is_Exception e = true) by (destruct Hf as [_ Hs]; exact (Hexn _ _ Hs)).
    repeat split; try assumption; try apply Hf.
    now apply process_study_fails.
Qed.

(** ** The endpoint of [POST /process] *)

Lemma endpoint_fallback env request st e :
  json_loads env (req_body request) = inl e ->
  process_study_endpoint env request st =
  (result <- process_study env demo_data ;; json_response result) st.
Proof.
  intros H. unfold process_study_endpoint, request_json. rewrite H.
  reflexivity.
Qed.

Lemma endpoint_decoded env request st v :
  json_loads env (req_body request) = inr v ->
  process_study_endpoint env request st =
  (result <- process_study env v ;; json_response result) st.
Proof.
  intros H. unfold process_study_endpoint, request_json. rewrite H.
  reflexivity.
Qed.

(** C1. A [POST /process] whose body is the JSON object with id
    ["s-1"] and title ["T"], when none of the four sleeps fails, is
    answered 200 with a result whose [study_id] is ["s-1"], whose
    [status] is ["completed"], whose [phases] are exactly four records,
    in the declared order and each ["completed"], and whose
    [final_content] has 8 chapters, 15000 words and a cost of 7.50. *)
Theorem C1_process_s1_completed env request st :
  req_body request = body_s1 ->
  json_loads env body_s1 = inr (PDict [("id", PStr "s-1"); ("title", PStr "T")]) ->
  no_failure env st 4 ->
  exists resp st' records fc q,
    process_study_endpoint env request st = (Returned resp, st') /\
    resp_status resp = 200 /\
    field (resp_json resp) "study_id" = Some (PStr "s-1") /\
    field (resp_json resp) "status" = Some (PStr "completed") /\
    field (resp_json resp) "phases" = Some (PList records) /\
    List.length records = 4%nat /\
    phase_names records =
      [ Some (PStr "Planejamento Estratégico");
        Some (PStr "Extração de Dados");
        Some (PStr "Geração de Conteúdo");
        Some (PStr "Polimento Final") ] /\
    phase_statuses records =
      [ Some (PStr "completed"); Some (PStr "completed");
        Some (PStr "completed"); Some (PStr "completed") ] /\
    field (resp_json resp) "final_content" = Some fc /\
    field fc "chapters" = Some (PInt 8) /\
    field fc "words" = Some (PInt 15000) /\
    field fc "cost_usd" = Some (PFloat q) /\ (q == 7.5)%Q.
Proof.
  intros Hbody Hloads Hcalm.
  rewrite <- Hbody in Hloads.
  rewrite (endpoint_decoded env request st _ Hloads).
  unfold bind.
  rewrite (process_study_completes env
             [("id", PStr "s-1"); ("title", PStr "T")] st eq_refl Hcalm).
  cbn. do 5 eexists. repeat split; reflexivity.
Qed.

Lemma C1_witness :
  req_body (mk_request body_s1) = body_s1 /\
  json_loads calm_env body_s1 =
    inr (PDict [("id", PStr "s-1"); ("title", PStr "T")]) /\
  exists resp st' records fc q,
    process_study_endpoint calm_env (mk_request body_s1) (fresh_state calm_env)
    = (Returned resp, st') /\
    resp_status resp = 200 /\
    field (resp_json resp) "study_id" = Some (PStr "s-1") /\
    field (resp_json resp) "status" = Some (PStr "completed") /\
    field (resp_json resp) "phases" = Some (PList records) /\
    List.length records = 4%nat /\
    phase_names records =
      [ Some (PStr "Planejamento Estratégico");
        Some (PStr "Extração de Dados");
        Some (PStr "Geração de Conteúdo");
        Some (PStr "Polimento Final") ] /\
    phase_statuses records =
      [ Some (PStr "completed"); Some (PStr "completed");
        Some (PStr "completed"); Some (PStr "completed") ] /\
    field (resp_json resp) "final_content" = Some fc /\
    field fc "chapters" = Some (PInt 8) /\
    field fc "words" = Some (PInt 15000) /\
    field fc "cost_usd" = Some (PFloat q) /\ (q == 7.5)%Q.
Proof.
  split; [reflexivity|]. split; [vm_compute; reflexivity|].
  apply (C1_process_s1_completed calm_env (mk_request body_s1)
           (fresh_state calm_env)).
  - reflexivity.
  - vm_compute; reflexivity.
  - intros k Hk. reflexivity.
Defined.

(** ** What [process_study] captures *)

(** C2, as stated, fails: the value [request.json()] returns for the
    body ["not json"] is a str; on it [study_data.get] raises
    [AttributeError] before the [try] block, the call raises outward
    and [studies_failed] is not incremented. *)
Lemma C2_counterexample :
  process_study calm_env (PStr "not json") (fresh_state calm_env) =
  (Raised (mk_exn AttributeError "'str' object has no attribute 'get'"),
   fresh_state calm_env) /\
  studies_failed (processing_stats (fresh_state calm_env)) = 0.
Proof. split; reflexivity. Qed.

(** C2, amended.  For every dict passed to [process_study] whose id
    [str] can render (as it does any string, and any int within the
    limit on digits, 4300 unless it was changed), when the failures of
    the environment derive from [Exception], the call returns a
    JobResult and never raises outward; a failure during
    the phases is converted into a result with status ["error"]
    carrying the message of the exception, and [studies_failed] is
    incremented by one, [studies_completed] being unchanged. *)
Theorem C2_process_study_captures_failures env d st :
  renders env (id_of d) = true ->
  sleep_failures_are_Exceptions env ->
  exists r st',
    process_study env (PDict d) st = (Returned r, st') /\
    is_JobResult r = true /\
    forall j e,
      (j < 4)%nat -> first_failure env st j e ->
      field r "status" = Some (PStr "error") /\
      field r "error" = Some (PStr (str_exn e)) /\
      studies_failed (processing_stats st') =
        studies_failed (processing_stats st) + 1 /\
      studies_completed (processing_stats st') =
        studies_completed (processing_stats st).
Proof.
  intros Hr Hexn.
  destruct (process_study_dict_cases env d st Hr Hexn)
    as [[Hcalm Heq] | (j & e & Hj & Hf & He & Heq)]; rewrite Heq.
  - do 2 eexists. split; [reflexivity|]. split; [reflexivity|].
    intros j e Hj Hf. destruct (no_failure_first_failure _ _ _ _ _ Hcalm Hj Hf).
  - do 2 eexists. split; [reflexivity|]. split; [reflexivity|].
    intros j' e' Hj' Hf'.
    assert (j' = j /\ e' = e) as [-> ->].
    { destruct Hf as [Hn Hs], Hf' as [Hn' Hs'].
      destruct (Nat.lt_trichotomy j' j) as [Hlt | [-> | Hgt]].
      - rewrite (Hn j' Hlt) in Hs'. discriminate.
      - rewrite Hs in Hs'. now inversion Hs'.
      - rewrite (Hn' j Hgt) in Hs. discriminate. }
    cbn. repeat split; reflexivity.
Qed.

Lemma sleep_failures_failing_env j :
  sleep_failures_are_Exceptions (failing_env j boom).
Proof.
  intros k e H. cbn in H. destruct (k =? j)%nat; [|discriminate].
  inversion H. reflexivity.
Qed.

Lemma C2_witness :
  renders (failing_env 1 boom) (id_of [("id", PStr "s-1")]) = true /\
  sleep_failures_are_Exceptions (failing_env 1 boom) /\
  exists r st',
    process_study (failing_env 1 boom) (PDict [("id", PStr "s-1")])
      (fresh_state (failing_env 1 boom)) = (Returned r, st') /\
    is_JobResult r = true /\
    forall j e,
      (j < 4)%nat ->
      first_failure (failing_env 1 boom) (fresh_state (failing_env 1 boom)) j e ->
      field r "status" = Some (PStr "error") /\
      field r "error" = Some (PStr (str_exn e)) /\
      studies_failed (processing_stats st') =
        studies_failed (processing_stats (fresh_state (failing_env 1 boom))) + 1 /\
      studies_completed (processing_stats st') =
        studies_completed (processing_stats (fresh_state (failing_env 1 boom))).
Proof.
  split; [reflexivity|]. split; [apply sleep_failures_failing_env|].
  apply (C2_process_study_captures_failures (failing_env 1 boom)
           [("id", PStr "s-1")] (fresh_state (failing_env 1 boom))).
  - reflexivity.
  - apply sleep_failures_failing_env.
Defined.

(** C3, as stated, fails: when the third sleep raises, two phase
    records have been accumulated, yet the result returned has the four
    keys of the [except] branch and no [phases] field. *)
Lemma C3_counterexample :
  exists failed_at,
    fst (process_study (failing_env 2 boom) demo_data
           (fresh_state (failing_env 2 boom))) =
    Returned (PDict [ ("study_id", PStr "demo-study");
                      ("status", PStr "error");
                      ("error", PStr "boom");
                      ("failed_at", PStr failed_at) ]) /\
    field (PDict [ ("study_id", PStr "demo-study");
                   ("status", PStr "error");
                   ("error", PStr "boom");
                   ("failed_at", PStr failed_at) ]) "phases" = None.
Proof. eexists. split; [vm_compute|]; reflexivity. Qed.

(** C3, amended.  For a dict input whose id [str] can render, when
    the failures of the environment derive from [Exception]: the
    result has status ["error"] if and only if one of the four sleeps
    of the pipeline raised; an error result has exactly the keys [study_id], [status],
    [error], [failed_at] and no [phases] field, the records accumulated
    before the failure being dropped; any other result carries the
    records of all four phases, in the declared order. *)
Theorem C3_error_result_has_no_phases env d st :
  renders env (id_of d) = true ->
  sleep_failures_are_Exceptions env ->
  exists r st',
    process_study env (PDict d) st = (Returned r, st') /\
    (field r "status" = Some (PStr "error") <->
     exists j e, (j < 4)%nat /\ first_failure env st j e) /\
    (field r "status" = Some (PStr "error") ->
     keys_of r = ["study_id"; "status"; "error"; "failed_at"] /\
     field r "phases" = None) /\
    (field r "status" <> Some (PStr "error") ->
     field r "status" = Some (PStr "completed") /\
     field r "phases" = Some (PList (phase_records env phases (n_now st))) /\
     phase_names (phase_records env phases (n_now st)) =
       map (fun p => Some (PStr p)) phases).
Proof.
  intros Hr Hexn.
  destruct (process_study_dict_cases env d st Hr Hexn)
    as [[Hcalm Heq] | (j & e & Hj & Hf & He & Heq)]; rewrite Heq.
  - do 2 eexists. split; [reflexivity|]. cbn [field final_result_of dict_get String.eqb Ascii.eqb Bool.eqb].
    split; [split|split].
    + intros H. discriminate.
    + intros (j & e & Hj & Hf).
      destruct (no_failure_first_failure _ _ _ _ _ Hcalm Hj Hf).
    + intros H. discriminate.
    + intros _. repeat split; reflexivity.
  - do 2 eexists. split; [reflexivity|]. cbn [field error_result_of dict_get String.eqb Ascii.eqb Bool.eqb].
    split; [split|split].
    + intros _. exists j, e. split; assumption.
    + reflexivity.
    + intros _. split; reflexivity.
    + intros H. now destruct H.
Qed.

Lemma C3_witness :
  renders (failing_env 2 boom) (id_of [("id", PStr "s-1")]) = true /\
  sleep_failures_are_Exceptions (failing_env 2 boom) /\
  exists r st',
    process_study (failing_env 2 boom) (PDict [("id", PStr "s-1")])
      (fresh_state (failing_env 2 boom)) = (Returned r, st') /\
    (field r "status" = Some (PStr "error") <->
     exists j e,
       (j < 4)%nat /\
       first_failure (failing_env 2 boom) (fresh_state (failing_env 2 boom)) j e) /\
    (field r "status" = Some (PStr "error") ->
     keys_of r = ["study_id"; "status"; "error"; "failed_at"] /\
     field r "phases" = None) /\
    (field r "status" <> Some (PStr "error") ->
     field r "status" = Some (PStr "completed") /\
     field r "phases" =
       Some (PList (phase_records (failing_env 2 boom) phases
                      (n_now (fresh_state (failing_env 2 boom))))) /\
     phase_names (phase_records (failing_env 2 boom) phases
                    (n_now (fresh_state (failing_env 2 boom)))) =
       map (fun p => Some (PStr p)) phases).
Proof.
  split; [reflexivity|]. split; [apply sleep_failures_failing_env|].
  apply (C3_error_result_has_no_phases (failing_env 2 boom)
           [("id", PStr "s-1")] (fresh_state (failing_env 2 boom))).
  - reflexivity.
  - apply sleep_failures_failing_env.
Defined.

(** ** The counters *)

Lemma sleep_failures_calm_env : sleep_failures_are_Exceptions calm_env.
Proof. intros k e H. discriminate. Qed.

(** One invocation on a dict moves exactly one counter, by one, and
    its result says which. *)
Lemma process_study_counts_one env d st :
  renders env (id_of d) = true ->
  sleep_failures_are_Exceptions env ->
  exists r st',
    process_study env (PDict d) st = (Returned r, st') /\
    ((has_status "completed" (Returned r) = true /\
      has_status "error" (Returned r) = false /\
      studies_completed (processing_stats st') =
        studies_completed (processing_stats st) + 1 /\
      studies_failed (processing_stats st') =
        studies_failed (processing_stats st))
     \/
     (has_status "completed" (Returned r) = false /\
      has_status "error" (Returned r) = true /\
      studies_completed (processing_stats st') =
        studies_completed (processing_stats st) /\
      studies_failed (processing_stats st') =
        studies_failed (processing_stats st) + 1)).
Proof.
  intros Hr Hexn.
  destruct (process_study_dict_cases env d st Hr Hexn)
    as [[Hcalm Heq] | (j & e & Hj & Hf & He & Heq)]; rewrite Heq;
    do 2 eexists; (split; [reflexivity|]).
  - left. repeat split; reflexivity.
  - right. repeat split; reflexivity.
Qed.

(** ** Interleaved coroutines *)

Lemma try_except_bind_Returned {A B} (m : M A) (k : A -> M B) h st a st1 :
  m st = (Returned a, st1) ->
  try_except_Exception (bind m k) h st = try_except_Exception (k a) h st1.
Proof. intros H. unfold try_except_Exception, bind. now rewrite H. Qed.

Lemma try_except_bind_Raised {A B} (m : M A) (k : A -> M B) h st e st1 :
  m st = (Raised e, st1) ->
  try_except_Exception (bind m k) h st = try_except_Exception (raise e) h st1.
Proof. intros H. unfold try_except_Exception, bind, raise. now rewrite H. Qed.

Lemma resume_n_Done env n : forall o st,
  resume_n env n (Done o) st = (Done o, st).
Proof. induction n as [|n IH]; intros o st; [reflexivity | cbn; apply IH]. Qed.

(** Resumed once per phase, a coroutine does what the rest of the
    [try] statement of [process_study] does. *)
Lemma resume_n_loop env study_data study_id : forall ps results st,
  resume_n env (List.length ps)
    (fst (enter_loop env study_data study_id ps results st))
    (snd (enter_loop env study_data study_id ps results st)) =
  done (try_except_Exception
          (results' <- run_phases env ps results ;;
           finish_study env study_data study_id results')
          (except_study env study_id)) st.
Proof.
  induction ps as [|phase rest IH]; intros results st.
  - cbn [List.length resume_n enter_loop run_phases].
    rewrite <- surjective_pairing. unfold done.
    rewrite (try_except_bind_Returned (ret results) _ _ st results st eq_refl).
    reflexivity.
  - cbn [List.length resume_n enter_loop run_phases fst snd resume].
    destruct (run_phase env phase results st) as [[results' | e] st1] eqn:E.
    + specialize (IH results' st1).
      destruct (enter_loop env study_data study_id rest results' st1) as [t' st'].
      cbn [fst snd] in IH. rewrite IH.
      unfold done, try_except_Exception, bind. rewrite E. reflexivity.
    + unfold done at 1.
      destruct (try_except_Exception (raise e) (except_study env study_id) st1)
        as [o st2] eqn:E2.
      rewrite resume_n_Done.
      unfold done, try_except_Exception, bind.
      unfold try_except_Exception, raise in E2. rewrite E. rewrite E2.
      reflexivity.
Qed.

(** What a call on a dict does up to its first suspension: the
    coroutine is suspended in its first sleep when the id renders, and
    has raised otherwise. *)
Lemma call_study_dict env d st :
  call_study env (PDict d) st =
  match str_error env (id_of d) with
  | None => (Sleeping (PDict d) (id_of d) phases [], st)
  | Some e => (Done (Raised e), st)
  end.
Proof.
  unfold call_study, id_of. cbn [py_get]. unfold ret at 1. unfold render.
  destruct (str_error env (get_default d "id" (PStr "demo-001")))
    as [e|] eqn:Hr; [|reflexivity].
  unfold raise at 1. unfold done, try_except_Exception, raise.
  rewrite (str_error_is_Exception env _ e Hr).
  unfold except_study. unfold bind at 1. unfold render. rewrite Hr.
  reflexivity.
Qed.

(** A coroutine resumed four times in a row is a call of
    [process_study]. *)
Lemma resume_n_process_study env d st :
  resume_n env 4 (fst (call_study env (PDict d) st))
    (snd (call_study env (PDict d) st)) =
  done (process_study env (PDict d)) st.
Proof.
  destruct (str_error env (id_of d)) as [e|] eqn:Hr.
  - rewrite (call_study_dict env d st), Hr. unfold done.
    rewrite (process_study_unrendered env d st e Hr). cbn [fst snd].
    rewrite resume_n_Done. reflexivity.
  - rewrite (call_study_dict env d st), Hr.
    change (Sleeping (PDict d) (id_of d) phases [], st)
      with (enter_loop env (PDict d) (id_of d) phases [] st).
    change 4%nat with (List.length phases).
    rewrite resume_n_loop. unfold done.
    change (process_study env (PDict d) st)
      with (try_except_Exception
              (render env (id_of d) ;;;
               results <- run_phases env phases [] ;;
               finish_study env (PDict d) (id_of d) results)
              (except_study env (id_of d)) st).
    rewrite (try_except_bind_Returned (render env (id_of d)) _ _ st tt st);
      [reflexivity | unfold render; now rewrite Hr].
Qed.

Lemma count_status_app s a b :
  count_status s (a ++ b) = count_status s a + count_status s b.
Proof. unfold count_status. rewrite filter_app, length_app. lia. Qed.

Lemma count_status_one s o :
  count_status s [o] = if has_status s o then 1 else 0.
Proof. unfold count_status. cbn. now destruct (has_status s o). Qed.

Lemma finished_cons t pool :
  finished (t :: pool) = (finished [t] ++ finished pool)%list.
Proof. destruct t; reflexivity. Qed.

Lemma finished_app a b :
  finished (a ++ b) = (finished a ++ finished b)%list.
Proof.
  induction a as [|t a IH]; [reflexivity|].
  cbn [app]. rewrite (finished_cons t (a ++ b)), (finished_cons t a), IH.
  now rewrite app_assoc.
Qed.

Lemma finished_set_nth pool : forall i t t',
  nth_error pool i = Some t ->
  exists a b,
    finished pool = (a ++ finished [t] ++ b)%list /\
    finished (set_nth i t' pool) = (a ++ finished [t'] ++ b)%list.
Proof.
  induction pool as [|x pool IH]; intros i t t' H.
  - destruct i; discriminate.
  - destruct i as [|i].
    + cbn in H. inversion H; subst x. exists [], (finished pool).
      cbn [set_nth app]. split; apply finished_cons.
    + cbn in H. destruct (IH i t t' H) as (a & b & Ha & Hb).
      exists (finished [x] ++ a)%list, b. cbn [set_nth].
      rewrite (finished_cons x pool), (finished_cons x (set_nth i t' pool)).
      rewrite Ha, Hb, <- !app_assoc. split; reflexivity.
Qed.


Lemma finish_step env study_data study_id results t st :
  renders env study_id = true ->
  finished [t] = [] ->
  step_ok t st
    (fst (done (try_except_Exception
                  (finish_study env study_data study_id results)
                  (except_study env study_id)) st))
    (snd (done (try_except_Exception
                  (finish_study env study_data study_id results)
                  (except_study env study_id)) st)).
Proof.
  intros Hr Ht. apply renders_None in Hr. right. split; [assumption|].
  destruct study_data;
    unfold done, try_except_Exception, finish_study, except_study;
    rewrite ?(render_ok env _ Hr);
    cbv [py_get bind ret raise now_isoformat
         datetime_now incr_completed incr_failed set_stats is_Exception
         derives_from_Exception exn_cls];
    cbn [fst snd processing_stats studies_completed studies_failed];
    eexists; (split; [reflexivity|]);
    first [ left; repeat split; reflexivity
          | right; repeat split; reflexivity ].
Qed.

Lemma except_step env study_id e t st :
  renders env study_id = true ->
  is_Exception e = true ->
  finished [t] = [] ->
  step_ok t st
    (fst (done (try_except_Exception (raise e) (except_study env study_id)) st))
    (snd (done (try_except_Exception (raise e) (except_study env study_id)) st)).
Proof.
  intros Hr He Ht. apply renders_None in Hr. right. split; [assumption|].
  unfold done, try_except_Exception, raise. rewrite He.
  unfold except_study. rewrite (render_ok env _ Hr).
  cbv [bind ret now_isoformat datetime_now incr_failed set_stats].
  cbn [fst snd processing_stats studies_completed studies_failed].
  eexists. split; [reflexivity|]. right. repeat split; reflexivity.
Qed.

(** Resuming a coroutine moves the counters only when it finishes, and
    then by one. *)
Lemma resume_step env t st :
  sleep_failures_are_Exceptions env ->
  task_renders env t ->
  step_ok t st (fst (resume env t st)) (snd (resume env t st)).
Proof.
  intros Hexn Hr. destruct t as [study_data study_id ps results | o].
  2:{ left. split; reflexivity. }
  cbn [task_renders] in Hr. destruct ps as [|phase rest].
  - apply finish_step; [assumption | reflexivity].
  - cbn [resume]. unfold run_phase, bind, asyncio_sleep.
    destruct (sleep_at env (n_sleep st)) as [e|] eqn:E.
    + exact (except_step env study_id e
               (Sleeping study_data study_id (phase :: rest) results)
               (mk_state (processing_stats st) (config st) (n_now st)
                  (S (n_sleep st)) (sent st))
               Hr (Hexn _ _ E) eq_refl).
    + cbv [now_isoformat bind datetime_now ret].
      cbn [n_now n_sleep processing_stats config sent].
      destruct rest as [|phase' rest'].
      * exact (finish_step env study_data study_id _
                 (Sleeping study_data study_id [phase] results)
                 (mk_state (processing_stats st) (config st) (S (n_now st))
                    (S (n_sleep st)) (sent st))
                 Hr eq_refl).
      * left. split; reflexivity.
Qed.

(** A coroutine keeps its id. *)
Lemma resume_renders env t st :
  task_renders env t -> task_renders env (fst (resume env t st)).
Proof.
  assert (Hloop : forall study_data study_id ps results st0,
            renders env study_id = true ->
            task_renders env
              (fst (enter_loop env study_data study_id ps results st0))).
  { intros study_data study_id ps results st0 Hr.
    destruct ps; cbn [enter_loop fst task_renders]; [|exact Hr].
    unfold done.
    now destruct (try_except_Exception
                    (finish_study env study_data study_id results)
                    (except_study env study_id) st0). }
  intros Hr. destruct t as [study_data study_id ps results | o]; [|exact I].
  cbn [task_renders] in Hr. destruct ps as [|phase rest]; cbn [resume].
  - now apply Hloop.
  - destruct (run_phase env phase results st) as [[results' | e] st1].
    + now apply Hloop.
    + unfold done.
      now destruct (try_except_Exception (raise e) (except_study env study_id)
                      st1).
Qed.

Lemma Forall_set_nth {A} (P : A -> Prop) x l : forall i,
  Forall P l -> P x -> Forall P (set_nth i x l).
Proof.
  induction l as [|y l IH]; intros i Hl Hx; [now destruct i|].
  inversion Hl; subst. destruct i; cbn [set_nth]; constructor; auto.
Qed.

Lemma run_event_counted env ev pool st c0 f0 :
  sleep_failures_are_Exceptions env ->
  calls_render env [ev] ->
  Forall (task_renders env) pool ->
  counted c0 f0 pool st ->
  counted c0 f0 (fst (run_event env ev pool st)) (snd (run_event env ev pool st))
  /\ Forall (task_renders env) (fst (run_event env ev pool st)).
Proof.
  intros Hexn Hev Hpool (Hc & Hf & Hn). destruct ev as [d | i].
  - inversion Hev as [|x l Hd _]; subst.
    cbn [run_event]. rewrite call_study_dict, (renders_None _ _ Hd).
    cbn [fst snd]. split.
    + unfold counted. rewrite finished_app. cbn [finished].
      rewrite app_nil_r. repeat split; assumption.
    + apply Forall_app. split; [assumption|]. constructor; [exact Hd|constructor].
  - cbn [run_event]. destruct (nth_error pool i) as [t|] eqn:E.
    2:{ split; [repeat split; assumption | assumption]. }
    assert (Ht : task_renders env t).
    { rewrite Forall_forall in Hpool. apply Hpool.
      eapply nth_error_In; exact E. }
    pose proof (resume_step env t st Hexn Ht) as Hstep.
    pose proof (resume_renders env t st Ht) as Ht'.
    destruct (resume env t st) as [t' st']. cbn [fst snd] in *.
    split; [|now apply Forall_set_nth].
    destruct (finished_set_nth pool i t t' E) as (a & b & Ha & Hb).
    unfold counted. rewrite Hb. rewrite Ha in Hc, Hf, Hn.
    rewrite !count_status_app in *. rewrite !length_app in *.
    destruct Hstep as [[Hfin Hst] | [Hfin (r & -> & Hcase)]].
    + rewrite Hfin, Hst. repeat split; assumption.
    + rewrite Hfin in Hc, Hf, Hn. cbn [finished] in *.
      rewrite !count_status_one in *. cbn [List.length] in *.
      unfold count_status in *. cbn [filter List.length] in Hc, Hf, Hn.
      destruct Hcase as [(H1 & H2 & H3 & H4) | (H1 & H2 & H3 & H4)];
        rewrite H1, H2, H3, H4; repeat split; lia.
Qed.

(** Whatever the order in which requests arrive and coroutines are
    resumed, the counters count the finished coroutines. *)
Lemma run_events_counted env evs : forall pool st c0 f0,
  sleep_failures_are_Exceptions env ->
  calls_render env evs ->
  Forall (task_renders env) pool ->
  counted c0 f0 pool st ->
  counted c0 f0 (fst (run_events env evs pool st))
    (snd (run_events env evs pool st)).
Proof.
  induction evs as [|ev evs IH]; intros pool st c0 f0 Hexn Hevs Hpool H.
  - exact H.
  - cbn [run_events]. inversion Hevs as [|x l Hev Hrest]; subst.
    pose proof (run_event_counted env ev pool st c0 f0 Hexn
                  (Forall_cons ev Hev (Forall_nil _)) Hpool H) as [H1 H2].
    destruct (run_event env ev pool st) as [pool1 st1].
    now apply IH.
Qed.

(** C4, as stated, fails: an invocation on a value that is not a dict
    (here [None], what [request.json()] returns for the body [null])
    raises before the [try] block and moves neither counter. *)
Lemma C4_counterexample :
  exists e,
    fst (process_study calm_env PNone (fresh_state calm_env)) = Raised e /\
    processing_stats (snd (process_study calm_env PNone (fresh_state calm_env)))
    = processing_stats (fresh_state calm_env).
Proof. eexists. split; reflexivity. Qed.

(** C4, amended.  Starting from counters at zero, let requests carrying
    dicts whose ids [str] can render arrive and their coroutines be
    resumed in any order, the failures of the sleeps deriving from
    [Exception].  At every moment [studies_completed] is the number of
    invocations that have returned a completed result and
    [studies_failed] the number that have returned an error result,
    every finished invocation being one or the other.  And a single
    invocation on such a dict adds one to exactly one of the two
    counters and leaves the other as it was. *)
Theorem C4_counters_count_invocations env evs st :
  sleep_failures_are_Exceptions env ->
  calls_render env evs ->
  studies_completed (processing_stats st) = 0 ->
  studies_failed (processing_stats st) = 0 ->
  (let pool := fst (run_events env evs [] st) in
   let st' := snd (run_events env evs [] st) in
   studies_completed (processing_stats st') =
     count_status "completed" (finished pool) /\
   studies_failed (processing_stats st') =
     count_status "error" (finished pool) /\
   count_status "completed" (finished pool)
   + count_status "error" (finished pool) =
     Z.of_nat (List.length (finished pool))) /\
  (forall d st1,
     renders env (id_of d) = true ->
     let st2 := snd (process_study env (PDict d) st1) in
     (studies_completed (processing_stats st2) =
        studies_completed (processing_stats st1) + 1 /\
      studies_failed (processing_stats st2) =
        studies_failed (processing_stats st1))
     \/
     (studies_completed (processing_stats st2) =
        studies_completed (processing_stats st1) /\
      studies_failed (processing_stats st2) =
        studies_failed (processing_stats st1) + 1)).
Proof.
  intros Hexn Hevs Hc Hf. split.
  - assert (H0 : counted 0 0 [] st).
    { unfold counted. cbn. rewrite Hc, Hf. repeat split; reflexivity. }
    pose proof (run_events_counted env evs [] st 0 0 Hexn Hevs
                  (Forall_nil _) H0) as H.
    cbn zeta. unfold counted in H. destruct H as (H1 & H2 & H3).
    repeat split; [rewrite H1 | rewrite H2 | exact H3]; lia.
  - intros d st1 Hr.
    destruct (process_study_counts_one env d st1 Hr Hexn)
      as (r & st2 & Heq & Hcase).
    cbn zeta. rewrite Heq. cbn [snd].
    destruct Hcase as [(_ & _ & Hsc & Hsf) | (_ & _ & Hsc & Hsf)];
      [left | right]; split; assumption.
Qed.

Lemma C4_witness :
  sleep_failures_are_Exceptions (failing_env 5 boom) /\
  calls_render (failing_env 5 boom) two_interleaved /\
  studies_completed (processing_stats (fresh_state (failing_env 5 boom))) = 0 /\
  studies_failed (processing_stats (fresh_state (failing_env 5 boom))) = 0 /\
  (let pool := fst (run_events (failing_env 5 boom) two_interleaved []
                      (fresh_state (failing_env 5 boom))) in
   let st' := snd (run_events (failing_env 5 boom) two_interleaved []
                     (fresh_state (failing_env 5 boom))) in
   studies_completed (processing_stats st') =
     count_status "completed" (finished pool) /\
   studies_failed (processing_stats st') =
     count_status "error" (finished pool) /\
   count_status "completed" (finished pool)
   + count_status "error" (finished pool) =
     Z.of_nat (List.length (finished pool))) /\
  (forall d st1,
     renders (failing_env 5 boom) (id_of d) = true ->
     let st2 := snd (process_study (failing_env 5 boom) (PDict d) st1) in
     (studies_completed (processing_stats st2) =
        studies_completed (processing_stats st1) + 1 /\
      studies_failed (processing_stats st2) =
        studies_failed (processing_stats st1))
     \/
     (studies_completed (processing_stats st2) =
        studies_completed (processing_stats st1) /\
      studies_failed (processing_stats st2) =
        studies_failed (processing_stats st1) + 1)).
Proof.
  split; [apply sleep_failures_failing_env|].
  split; [unfold calls_render, two_interleaved; repeat constructor|].
  split; [reflexivity|]. split; [reflexivity|].
  apply (C4_counters_count_invocations (failing_env 5 boom) two_interleaved
           (fresh_state (failing_env 5 boom))).
  - apply sleep_failures_failing_env.
  - unfold calls_render, two_interleaved; repeat constructor.
  - reflexivity.
  - reflexivity.
Defined.

(** In the run of [two_interleaved] the first request completes and
    the second fails. *)
Example two_interleaved_counts :
  processing_stats
    (snd (run_events (failing_env 5 boom) two_interleaved []
            (fresh_state (failing_env 5 boom)))) =
  mk_stats 1 1 1700000000000000 /\
  map (has_status "completed")
    (finished (fst (run_events (failing_env 5 boom) two_interleaved []
                      (fresh_state (failing_env 5 boom))))) =
  [true; false].
Proof. split; vm_compute; reflexivity. Qed.

(** ** Bodies that are not JSON *)

(** The result of a call on [demo_data] is always serialisable. *)
Lemma endpoint_on_demo env request st e :
  json_loads env (req_body request) = inl e ->
  sleep_failures_are_Exceptions env ->
  exists r st',
    process_study env demo_data st = (Returned r, st') /\
    process_study_endpoint env request st =
      (Returned (mk_response 200 "application/json" r), st') /\
    is_JobResult r = true /\
    field r "study_id" = Some (PStr "demo-study").
Proof.
  intros Hloads Hexn. rewrite (endpoint_fallback env request st e Hloads).
  unfold demo_data, bind.
  destruct (process_study_dict_cases env
              [("id", PStr "demo-study");
               ("title", PStr "Estudo de Demonstração");
               ("client", PStr "Cliente Demo")] st eq_refl Hexn)
    as [[Hcalm Heq] | (j & e' & Hj & Hf & He & Heq)]; rewrite Heq;
    do 2 eexists; repeat split; reflexivity.
Qed.

(** C5, as stated, fails: the body [NaN] is not valid JSON, yet the
    decoder of [request.json()] accepts it, as it accepts [Infinity]
    and [-Infinity], and returns a float.  No fallback takes place,
    [study_data.get] raises [AttributeError] on the float and the
    server answers 500. *)
Lemma C5_counterexample :
  loads_fragment "NaN" = inr (PNonFinite NaN) /\
  process_study_endpoint calm_env (mk_request "NaN") (fresh_state calm_env) =
  (Raised (mk_exn AttributeError "'float' object has no attribute 'get'"),
   fresh_state calm_env) /\
  served_status
    (fst (process_study_endpoint calm_env (mk_request "NaN")
            (fresh_state calm_env))) = Some 500.
Proof.
  assert (Hloads : loads_fragment "NaN" = inr (PNonFinite NaN))
    by (vm_compute; reflexivity).
  assert (Hraises :
    process_study_endpoint calm_env (mk_request "NaN") (fresh_state calm_env) =
    (Raised (mk_exn AttributeError "'float' object has no attribute 'get'"),
     fresh_state calm_env)).
  { rewrite (endpoint_decoded calm_env (mk_request "NaN")
               (fresh_state calm_env) (PNonFinite NaN) Hloads).
    reflexivity. }
  split; [exact Hloads|]. split; [exact Hraises|].
  rewrite Hraises. reflexivity.
Qed.

(** The decoder accepts the three literals that are not JSON, alone or
    inside a list. *)
Example loads_fragment_accepts_nonfinite :
  loads_fragment "Infinity" = inr (PNonFinite PosInfinity) /\
  loads_fragment "-Infinity" = inr (PNonFinite NegInfinity) /\
  loads_fragment "[NaN]" = inr (PList [PNonFinite NaN]).
Proof.
  assert (H1 : loads_fragment "Infinity" = inr (PNonFinite PosInfinity))
    by (vm_compute; reflexivity).
  assert (H2 : loads_fragment "-Infinity" = inr (PNonFinite NegInfinity))
    by (vm_compute; reflexivity).
  assert (H3 : loads_fragment "[NaN]" = inr (PList [PNonFinite NaN]))
    by (vm_compute; reflexivity).
  exact (conj H1 (conj H2 H3)).
Qed.

(** C5, amended.  When [request.json()] raises on the body of a
    [POST /process] (as it does on an empty body and on any text that
    its decoder rejects), the handler runs [process_study] on the fixed
    demo request and answers 200 with its JobResult; the server answers
    neither 4xx nor 5xx. *)
Theorem C5_invalid_body_falls_back env request st e :
  json_loads env (req_body request) = inl e ->
  sleep_failures_are_Exceptions env ->
  exists resp st',
    process_study_endpoint env request st = (Returned resp, st') /\
    process_study env demo_data st = (Returned (resp_json resp), st') /\
    resp_status resp = 200 /\
    served_status (fst (process_study_endpoint env request st)) = Some 200 /\
    is_JobResult (resp_json resp) = true.
Proof.
  intros Hloads Hexn.
  destruct (endpoint_on_demo env request st e Hloads Hexn)
    as (r & st' & Hp & He & Hj & _).
  exists (mk_response 200 "application/json" r), st'.
  rewrite He. repeat split; assumption.
Qed.

Lemma C5_witness :
  json_loads calm_env (req_body (mk_request "")) =
    inl (decode_error "Expecting value") /\
  sleep_failures_are_Exceptions calm_env /\
  exists resp st',
    process_study_endpoint calm_env (mk_request "") (fresh_state calm_env)
    = (Returned resp, st') /\
    process_study calm_env demo_data (fresh_state calm_env)
    = (Returned (resp_json resp), st') /\
    resp_status resp = 200 /\
    served_status
      (fst (process_study_endpoint calm_env (mk_request "")
              (fresh_state calm_env))) = Some 200 /\
    is_JobResult (resp_json resp) = true.
Proof.
  split; [reflexivity|]. split; [apply sleep_failures_calm_env|].
  apply (C5_invalid_body_falls_back calm_env (mk_request "")
           (fresh_state calm_env) (decode_error "Expecting value")).
  - reflexivity.
  - apply sleep_failures_calm_env.
Defined.

(** The decoder of the scenarios rejects the eight-byte body
    [not json] as it rejects the empty one. *)
Example loads_fragment_rejects_not_json :
  loads_fragment body_not_json = inl (decode_error "Expecting value") /\
  loads_fragment "" = inl (decode_error "Expecting value").
Proof. split; vm_compute; reflexivity. Qed.

(** C6: the code at the failing input.  The ten-byte body ["not json"]
    is a JSON string: the decoder returns the str [not json], no
    fallback takes place, [process_study] raises [AttributeError] on it
    and the server answers 500. *)
Theorem C6_quoted_body_raises :
  loads_fragment body_quoted_not_json = inr (PStr "not json") /\
  process_study_endpoint calm_env (mk_request body_quoted_not_json)
    (fresh_state calm_env) =
  (Raised (mk_exn AttributeError "'str' object has no attribute 'get'"),
   fresh_state calm_env) /\
  served_status
    (fst (process_study_endpoint calm_env (mk_request body_quoted_not_json)
            (fresh_state calm_env))) = Some 500.
Proof.
  assert (Hloads : loads_fragment body_quoted_not_json = inr (PStr "not json"))
    by (vm_compute; reflexivity).
  assert (Hraises :
    process_study_endpoint calm_env (mk_request body_quoted_not_json)
      (fresh_state calm_env) =
    (Raised (mk_exn AttributeError "'str' object has no attribute 'get'"),
     fresh_state calm_env)).
  { rewrite (endpoint_decoded calm_env (mk_request body_quoted_not_json)
               (fresh_state calm_env) (PStr "not json") Hloads).
    reflexivity. }
  split; [exact Hloads|]. split; [exact Hraises|].
  rewrite Hraises. reflexivity.
Qed.


(** The sibling path: on the eight-byte body [not json] the fallback
    applies and the result has the values the scenario names. *)
Example unquoted_not_json_falls_back :
  exists resp st' fc,
    process_study_endpoint calm_env (mk_request body_not_json)
      (fresh_state calm_env) = (Returned resp, st') /\
    resp_status resp = 200 /\
    field (resp_json resp) "study_id" = Some (PStr "demo-study") /\
    field (resp_json resp) "status" = Some (PStr "completed") /\
    field (resp_json resp) "final_content" = Some fc /\
    field fc "title" = Some (PStr "Estudo de Demonstração").
Proof.
  assert (Hloads : json_loads calm_env (req_body (mk_request body_not_json)) =
                   inl (decode_error "Expecting value"))
    by (vm_compute; reflexivity).
  rewrite (endpoint_fallback calm_env (mk_request body_not_json)
             (fresh_state calm_env) _ Hloads).
  assert (Hcalm : no_failure calm_env (fresh_state calm_env) 4)
    by (intros k Hk; reflexivity).
  pose proof (process_study_completes calm_env
                [("id", PStr "demo-study");
                 ("title", PStr "Estudo de Demonstração");
                 ("client", PStr "Cliente Demo")]
                (fresh_state calm_env) eq_refl Hcalm) as Hdemo.
  unfold bind. fold demo_data in Hdemo. rewrite Hdemo.
  do 3 eexists. split; [reflexivity|]. repeat split; reflexivity.
Qed.

(** C10. When the decoder raises on the body, the result always
    carries the fixed [study_id] ["demo-study"], whatever the request
    and the state: two such requests get the same id.  And on a dict
    without an ['id'] key [process_study] uses the fixed ["demo-001"]. *)
Theorem C10_fallback_ids_are_constants env :
  sleep_failures_are_Exceptions env ->
  (forall request st e,
     json_loads env (req_body request) = inl e ->
     exists resp st',
       process_study_endpoint env request st = (Returned resp, st') /\
       field (resp_json resp) "study_id" = Some (PStr "demo-study")) /\
  (forall d st,
     dict_get d "id" = None ->
     exists r st',
       process_study env (PDict d) st = (Returned r, st') /\
       field r "study_id" = Some (PStr "demo-001")).
Proof.
  intros Hexn. split.
  - intros request st e Hloads.
    destruct (endpoint_on_demo env request st e Hloads Hexn)
      as (r & st' & _ & He & _ & Hid).
    exists (mk_response 200 "application/json" r), st'. split; assumption.
  - intros d st Hid.
    assert (Hr : renders env (id_of d) = true)
      by (unfold id_of, get_default; rewrite Hid; reflexivity).
    destruct (process_study_dict_cases env d st Hr Hexn)
      as [[Hcalm Heq] | (j & e' & Hj & Hf & He & Heq)]; rewrite Heq;
      do 2 eexists; (split; [reflexivity|]);
      unfold get_default; rewrite Hid; reflexivity.
Qed.

Lemma C10_witness :
  sleep_failures_are_Exceptions (failing_env 0 boom) /\
  (forall request st e,
     json_loads (failing_env 0 boom) (req_body request) = inl e ->
     exists resp st',
       process_study_endpoint (failing_env 0 boom) request st
       = (Returned resp, st') /\
       field (resp_json resp) "study_id" = Some (PStr "demo-study")) /\
  (forall d st,
     dict_get d "id" = None ->
     exists r st',
       process_study (failing_env 0 boom) (PDict d) st = (Returned r, st') /\
       field r "study_id" = Some (PStr "demo-001")).
Proof.
  split; [apply sleep_failures_failing_env|].
  apply (C10_fallback_ids_are_constants (failing_env 0 boom)).
  apply sleep_failures_failing_env.
Defined.

(** Two different bodies that are not JSON get the same [study_id]. *)
Example malformed_bodies_share_one_id :
  field (match fst (process_study_endpoint calm_env (mk_request body_not_json)
                      (fresh_state calm_env)) with
         | Returned resp => resp_json resp
         | Raised _ => PNone
         end) "study_id" = Some (PStr "demo-study") /\
  field (match fst (process_study_endpoint calm_env (mk_request "{")
                      (fresh_state calm_env)) with
         | Returned resp => resp_json resp
         | Raised _ => PNone
         end) "study_id" = Some (PStr "demo-study").
Proof. split; vm_compute; reflexivity. Qed.

(** ** [GET /health] *)

(** [int(total_seconds())] at a few differences: whole seconds,
    toward zero; and one second more than the whole seconds where the
    float cannot tell the difference from the next second. *)
Example int_total_seconds_values :
  int_total_seconds 0 = 0 /\
  int_total_seconds 999999 = 0 /\
  int_total_seconds 1000000 = 1 /\
  int_total_seconds 86400000000 = 86400 /\
  int_total_seconds (-1500000) = -1 /\
  int_total_seconds 8589934591999999 = 8589934591 /\
  int_total_seconds 17179869184999999 = 17179869185.
Proof. repeat split; vm_compute; reflexivity. Qed.

(** The payload [health_check] builds has the fields the route is meant
    to answer with, the uptime being what [int] makes of the seconds
    between the start and now; but its [stats] hold a [datetime], which
    [json.dumps] refuses. *)
Lemma health_payload_fields uptime stats timestamp :
  field (health_payload uptime stats timestamp) "status" = Some (PStr "healthy") /\
  field (health_payload uptime stats timestamp) "uptime_seconds"
  = Some (PInt (int_total_seconds uptime)) /\
  field (health_payload uptime stats timestamp) "stats" = Some (stats_dict stats) /\
  field (health_payload uptime stats timestamp) "timestamp" = Some (PStr timestamp) /\
  json_serializable (health_payload uptime stats timestamp) = false.
Proof. repeat split; reflexivity. Qed.

(** C7: the code at every input.  [health_check] raises [TypeError]
    from [json_response] in every state and for every clock, so the
    server answers 500 and never the healthy body. *)
Theorem C7_health_check_raises env request st :
  health_check env request st =
  (Raised (mk_exn TypeError "Object of type datetime is not JSON serializable"),
   advance st 2 0) /\
  served_status (fst (health_check env request st)) = Some 500.
Proof.
  assert (H : health_check env request st =
    (Raised (mk_exn TypeError "Object of type datetime is not JSON serializable"),
     advance st 2 0)).
  { unfold health_check.
    cbv [bind ret now_isoformat datetime_now get_stats advance].
    cbn [n_now n_sleep processing_stats config sent].
    unfold json_response.
    destruct (health_payload_fields
                (now_at env (n_now st) - uptime_start (processing_stats st))
                (processing_stats st)
                (isoformat env (now_at env (S (n_now st)))))
      as (_ & _ & _ & _ & Hs).
    rewrite Hs. unfold raise. f_equal. f_equal; lia. }
  rewrite H. split; reflexivity.
Qed.

(** ** The provider probes *)

Lemma entry_of_serializable o label :
  json_serializable (entry_of o label) = true.
Proof. destruct o; reflexivity. Qed.

Lemma entry_of_status o label :
  (o = HttpStatus 200 /\
   field (entry_of o label) "status" = Some (PStr "ok"))
  \/
  (o <> HttpStatus 200 /\
   field (entry_of o label) "status" = Some (PStr "error")).
Proof.
  destruct o as [code | e].
  - destruct (Z.eqb_spec code 200) as [-> | Hne].
    + left. split; reflexivity.
    + right. split.
      * intros H. inversion H. contradiction.
      * cbn. apply Z.eqb_neq in Hne. rewrite Hne. reflexivity.
  - right. split; [discriminate | reflexivity].
Qed.

(** [test_apis] makes its two calls, in order, whatever the first one
    does, and stores for each provider the entry of its own call. *)
Lemma test_apis_result env st :
  probe_failures_are_Exceptions env ->
  test_apis env st =
  (Returned
     (PDict
        [ ("openai",
           entry_of (http_at env (List.length (sent st))
                       (openai_request (config st))) "~1s");
          ("supabase",
           entry_of (http_at env (S (List.length (sent st)))
                       (supabase_request (config st))) "~500ms") ]),
   mk_state (processing_stats st) (config st) (n_now st) (n_sleep st)
     (sent st ++ [openai_request (config st); supabase_request (config st)])).
Proof.
  intros Hexn. unfold test_apis.
  cbv [bind ret try_except_Exception get_config http_call].
  destruct (http_at env (List.length (sent st)) (openai_request (config st)))
    as [c1 | e1] eqn:E1; [| rewrite (Hexn _ _ _ E1)];
    cbn [n_now n_sleep processing_stats config sent];
    rewrite length_app; cbn [List.length]; rewrite Nat.add_1_r;
    (destruct (http_at env (S (List.length (sent st)))
                 (supabase_request (config st)))
       as [c2 | e2] eqn:E2; [| rewrite (Hexn _ _ _ E2)]);
    rewrite <- app_assoc; reflexivity.
Qed.

(** [api_status] answers 200 with the entries and a timestamp. *)
Lemma api_status_result env request st :
  probe_failures_are_Exceptions env ->
  api_status env request st =
  (Returned
     (mk_response 200 "application/json"
        (PDict
           [ ("apis",
              PDict
                [ ("openai",
                   entry_of (http_at env (List.length (sent st))
                               (openai_request (config st))) "~1s");
                  ("supabase",
                   entry_of (http_at env (S (List.length (sent st)))
                               (supabase_request (config st))) "~500ms") ]);
             ("timestamp", PStr (isoformat env (now_at env (n_now st)))) ])),
   mk_state (processing_stats st) (config st) (S (n_now st)) (n_sleep st)
     (sent st ++ [openai_request (config st); supabase_request (config st)])).
Proof.
  intros Hexn. unfold api_status. unfold bind at 1.
  rewrite (test_apis_result env st Hexn).
  cbv [bind ret now_isoformat datetime_now].
  cbn [n_now n_sleep processing_stats config sent].
  unfold json_response. cbn [json_serializable].
  rewrite !entry_of_serializable. reflexivity.
Qed.

Lemma probe_failures_unreachable_env :
  probe_failures_are_Exceptions (unreachable_env connection_refused).
Proof.
  intros k req e H. cbn in H. destruct (k =? 0)%nat; [|discriminate].
  inversion H. reflexivity.
Qed.

(** C8. The two probes are independent: both calls are made, in
    order, whatever the first one does, and the entry of each provider
    is determined by the outcome of its own call alone; a call that
    raises gives its provider the entry with status ["error"] and the
    text of the exception; and [/api-status] embeds the entries in a
    response of status 200. *)
Theorem C8_probes_are_independent env request st :
  probe_failures_are_Exceptions env ->
  let o1 := http_at env (List.length (sent st)) (openai_request (config st)) in
  let o2 := http_at env (S (List.length (sent st)))
              (supabase_request (config st)) in
  exists resp st',
    api_status env request st = (Returned resp, st') /\
    resp_status resp = 200 /\
    served_status (fst (api_status env request st)) = Some 200 /\
    field (resp_json resp) "apis" =
      Some (PDict [ ("openai", entry_of o1 "~1s");
                    ("supabase", entry_of o2 "~500ms") ]) /\
    sent st' =
      (sent st ++ [openai_request (config st); supabase_request (config st)])%list /\
    (forall e, o1 = HttpRaises e ->
       entry_of o1 "~1s" =
       PDict [ ("status", PStr "error"); ("error", PStr (str_exn e)) ]) /\
    (forall e, o2 = HttpRaises e ->
       entry_of o2 "~500ms" =
       PDict [ ("status", PStr "error"); ("error", PStr (str_exn e)) ]).
Proof.
  intros Hexn o1 o2.
  rewrite (api_status_result env request st Hexn). fold o1 o2.
  do 2 eexists. split; [reflexivity|].
  cbn [resp_status resp_json fst served_status sent field dict_get
       String.eqb Ascii.eqb Bool.eqb].
  repeat split; intros e He; rewrite He; reflexivity.
Qed.

Lemma C8_witness :
  probe_failures_are_Exceptions (unreachable_env connection_refused) /\
  let env := unreachable_env connection_refused in
  let st := fresh_state env in
  let o1 := http_at env (List.length (sent st)) (openai_request (config st)) in
  let o2 := http_at env (S (List.length (sent st)))
              (supabase_request (config st)) in
  exists resp st',
    api_status env (mk_request "") st = (Returned resp, st') /\
    resp_status resp = 200 /\
    served_status (fst (api_status env (mk_request "") st)) = Some 200 /\
    field (resp_json resp) "apis" =
      Some (PDict [ ("openai", entry_of o1 "~1s");
                    ("supabase", entry_of o2 "~500ms") ]) /\
    sent st' =
      (sent st ++ [openai_request (config st); supabase_request (config st)])%list /\
    (forall e, o1 = HttpRaises e ->
       entry_of o1 "~1s" =
       PDict [ ("status", PStr "error"); ("error", PStr (str_exn e)) ]) /\
    (forall e, o2 = HttpRaises e ->
       entry_of o2 "~500ms" =
       PDict [ ("status", PStr "error"); ("error", PStr (str_exn e)) ]).
Proof.
  split; [apply probe_failures_unreachable_env|].
  apply (C8_probes_are_independent (unreachable_env connection_refused)
           (mk_request "") (fresh_state (unreachable_env connection_refused))).
  apply probe_failures_unreachable_env.
Defined.

(** With the first provider unreachable, its entry is the error and the
    second provider's entry is the one of its own answer. *)
Example unreachable_openai_entries :
  fst (test_apis (unreachable_env connection_refused)
         (fresh_state (unreachable_env connection_refused))) =
  Returned
    (PDict
       [ ("openai",
          PDict [ ("status", PStr "error");
                  ("error", PStr "Cannot connect to host api.openai.com:443") ]);
         ("supabase",
          PDict [ ("status", PStr "ok"); ("response_time", PStr "~500ms") ]) ]).
Proof. vm_compute. reflexivity. Qed.

(** C9, as stated, fails: 204 is an HTTP success status, and a
    provider answering 204 gets the entry with status ["error"]. *)
Lemma C9_counterexample :
  fst (test_apis (answering_env 204) (fresh_state (answering_env 204))) =
  Returned
    (PDict
       [ ("openai",
          PDict [ ("status", PStr "error"); ("response_time", PStr "~1s") ]);
         ("supabase",
          PDict [ ("status", PStr "error"); ("response_time", PStr "~500ms") ]) ]).
Proof. vm_compute. reflexivity. Qed.

(** C9, amended.  [test_apis] makes exactly two HTTP calls, one [POST]
    to the chat-completion API and one [GET] to the data backend, each
    with a timeout of 30, and stores one entry per provider: its status
    is ["ok"] if and only if the call answered with status 200, and
    ["error"] for any other status code and for any call that raised. *)
Theorem C9_two_probes_ok_iff_200 env st :
  probe_failures_are_Exceptions env ->
  let req1 := openai_request (config st) in
  let req2 := supabase_request (config st) in
  let o1 := http_at env (List.length (sent st)) req1 in
  let o2 := http_at env (S (List.length (sent st))) req2 in
  exists r st' e1 e2,
    test_apis env st = (Returned r, st') /\
    sent st' = (sent st ++ [req1; req2])%list /\
    (http_method_of req1 = POST /\
     http_url req1 = "https://api.openai.com/v1/chat/completions" /\
     http_timeout req1 = 30) /\
    (http_method_of req2 = GET /\
     http_url req2 = format_opt (supabase_url (config st)) ++ "/rest/v1/" /\
     http_timeout req2 = 30) /\
    keys_of r = ["openai"; "supabase"] /\
    field r "openai" = Some e1 /\
    field r "supabase" = Some e2 /\
    (field e1 "status" = Some (PStr "ok") <-> o1 = HttpStatus 200) /\
    (field e1 "status" = Some (PStr "error") <-> o1 <> HttpStatus 200) /\
    (field e2 "status" = Some (PStr "ok") <-> o2 = HttpStatus 200) /\
    (field e2 "status" = Some (PStr "error") <-> o2 <> HttpStatus 200).
Proof.
  intros Hexn req1 req2 o1 o2.
  rewrite (test_apis_result env st Hexn). fold req1 req2 o1 o2.
  exists (PDict [("openai", entry_of o1 "~1s"); ("supabase", entry_of o2 "~500ms")]).
  eexists. exists (entry_of o1 "~1s"), (entry_of o2 "~500ms").
  split; [reflexivity|]. split; [reflexivity|].
  split; [repeat split; reflexivity|]. split; [repeat split; reflexivity|].
  split; [reflexivity|]. split; [reflexivity|]. split; [reflexivity|].
  destruct (entry_of_status o1 "~1s") as [[H1 S1] | [H1 S1]];
  destruct (entry_of_status o2 "~500ms") as [[H2 S2] | [H2 S2]];
  rewrite S1, S2; repeat split; intros; try assumption; try reflexivity;
  try discriminate; try contradiction.
Qed.

Lemma probe_failures_answering_env code :
  probe_failures_are_Exceptions (answering_env code).
Proof. intros k req e H. discriminate. Qed.

Lemma C9_witness :
  probe_failures_are_Exceptions (answering_env 503) /\
  let env := answering_env 503 in
  let st := fresh_state env in
  let req1 := openai_request (config st) in
  let req2 := supabase_request (config st) in
  let o1 := http_at env (List.length (sent st)) req1 in
  let o2 := http_at env (S (List.length (sent st))) req2 in
  exists r st' e1 e2,
    test_apis env st = (Returned r, st') /\
    sent st' = (sent st ++ [req1; req2])%list /\
    (http_method_of req1 = POST /\
     http_url req1 = "https://api.openai.com/v1/chat/completions" /\
     http_timeout req1 = 30) /\
    (http_method_of req2 = GET /\
     http_url req2 = format_opt (supabase_url (config st)) ++ "/rest/v1/" /\
     http_timeout req2 = 30) /\
    keys_of r = ["openai"; "supabase"] /\
    field r "openai" = Some e1 /\
    field r "supabase" = Some e2 /\
    (field e1 "status" = Some (PStr "ok") <-> o1 = HttpStatus 200) /\
    (field e1 "status" = Some (PStr "error") <-> o1 <> HttpStatus 200) /\
    (field e2 "status" = Some (PStr "ok") <-> o2 = HttpStatus 200) /\
    (field e2 "status" = Some (PStr "error") <-> o2 <> HttpStatus 200).
Proof.
  split; [apply probe_failures_answering_env|].
  apply (C9_two_probes_ok_iff_200 (answering_env 503)
           (fresh_state (answering_env 503))).
  apply probe_failures_answering_env.
Defined.

(** * Further properties of the module *)

(** ** What the computations leave alone *)

Section Keeps.

Variable R : State -> State -> Prop.
Hypothesis R_refl : forall st, R st st.
Hypothesis R_trans : forall a b c, R a b -> R b c -> R a c.

Lemma keeps_ret {A} (a : A) : keeps R (ret a).
Proof. intros st. apply R_refl. Qed.

Lemma keeps_raise {A} (e : pyexn) : keeps R (@raise A e).
Proof. intros st. apply R_refl. Qed.

Lemma keeps_bind {A B} (m : M A) (k : A -> M B) :
  keeps R m -> (forall a, keeps R (k a)) -> keeps R (bind m k).
Proof.
  intros Hm Hk st. unfold bind. specialize (Hm st).
  destruct (m st) as [[a | e] st1]; cbn [snd] in *.
  - eapply R_trans; [exact Hm | apply Hk].
  - exact Hm.
Qed.

Lemma keeps_try_except_Exception {A} (body : M A) (handler : pyexn -> M A) :
  keeps R body -> (forall e, keeps R (handler e)) ->
  keeps R (try_except_Exception body handler).
Proof.
  intros Hm Hk st. unfold try_except_Exception. specialize (Hm st).
  destruct (body st) as [[a | e] st1]; cbn [snd] in *; [exact Hm|].
  destruct (is_Exception e); [|exact Hm].
  eapply R_trans; [exact Hm | apply Hk].
Qed.

Lemma keeps_try_except_all {A} (body handler : M A) :
  keeps R body -> keeps R handler -> keeps R (try_except_all body handler).
Proof.
  intros Hm Hk st. unfold try_except_all. specialize (Hm st).
  destruct (body st) as [[a | e] st1]; cbn [snd] in *; [exact Hm|].
  eapply R_trans; [exact Hm | apply Hk].
Qed.

Lemma keeps_py_get v key default : keeps R (py_get v key default).
Proof. destruct v; intros st; apply R_refl. Qed.

Lemma keeps_render env v : keeps R (render env v).
Proof.
  unfold render. destruct (str_error env v); intros st; apply R_refl.
Qed.

Lemma keeps_json_response data : keeps R (json_response data).
Proof.
  unfold json_response. destruct (json_serializable data); intros st; apply R_refl.
Qed.

Lemma keeps_request_json env request : keeps R (request_json env request).
Proof.
  unfold request_json. destruct (json_loads env (req_body request));
    intros st; apply R_refl.
Qed.

End Keeps.

Lemma same_orchestrator_refl st : same_orchestrator st st.
Proof. split; reflexivity. Qed.

Lemma same_orchestrator_trans a b c :
  same_orchestrator a b -> same_orchestrator b c -> same_orchestrator a c.
Proof. intros [H1 H2] [H3 H4]. split; congruence. Qed.

Lemma only_counts_up_refl st : only_counts_up st st.
Proof. repeat split; lia. Qed.

Lemma only_counts_up_trans a b c :
  only_counts_up a b -> only_counts_up b c -> only_counts_up a c.
Proof.
  intros (H1 & H2 & H3 & H4 & H5) (G1 & G2 & G3 & G4 & G5).
  repeat split; try congruence; lia.
Qed.

Ltac frame_simpl :=
  cbn [snd fst processing_stats config sent n_now n_sleep studies_completed
       studies_failed uptime_start].

Lemma counts_up_datetime_now env : keeps only_counts_up (datetime_now env).
Proof.
  intros st. unfold only_counts_up, datetime_now. frame_simpl.
  repeat split; lia.
Qed.

Lemma counts_up_asyncio_sleep env seconds :
  keeps only_counts_up (asyncio_sleep env seconds).
Proof.
  intros st. unfold only_counts_up, asyncio_sleep.
  destruct (sleep_at env (n_sleep st)); frame_simpl; repeat split; lia.
Qed.

Lemma counts_up_incr_completed : keeps only_counts_up incr_completed.
Proof.
  intros st. unfold only_counts_up, incr_completed, set_stats. frame_simpl.
  repeat split; lia.
Qed.

Lemma counts_up_incr_failed : keeps only_counts_up incr_failed.
Proof.
  intros st. unfold only_counts_up, incr_failed, set_stats. frame_simpl.
  repeat split; lia.
Qed.

Lemma same_datetime_now env : keeps same_orchestrator (datetime_now env).
Proof. intros st. split; reflexivity. Qed.

Lemma same_get_stats : keeps same_orchestrator get_stats.
Proof. intros st. split; reflexivity. Qed.

Lemma same_get_config : keeps same_orchestrator get_config.
Proof. intros st. split; reflexivity. Qed.

Lemma same_http_call env req : keeps same_orchestrator (http_call env req).
Proof.
  intros st. unfold http_call.
  destruct (http_at env (List.length (sent st)) req); split; reflexivity.
Qed.

(** One step of a proof that a computation keeps a relation: a
    primitive, or a combinator of the monad. *)
Ltac keeps_step :=
  first
    [ exact only_counts_up_refl | exact only_counts_up_trans
    | exact same_orchestrator_refl | exact same_orchestrator_trans
    | apply counts_up_datetime_now | apply counts_up_asyncio_sleep
    | apply counts_up_incr_completed | apply counts_up_incr_failed
    | apply same_datetime_now | apply same_get_stats | apply same_get_config
    | apply same_http_call
    | apply keeps_ret | apply keeps_raise | apply keeps_py_get
    | apply keeps_render
    | apply keeps_json_response | apply keeps_request_json
    | apply keeps_try_except_Exception | apply keeps_try_except_all
    | apply keeps_bind ].

Ltac keeps_all :=
  repeat first [ keeps_step | match goal with |- forall _, _ => intro end ].

Lemma counts_up_now_isoformat env : keeps only_counts_up (now_isoformat env).
Proof. unfold now_isoformat. keeps_all. Qed.

Lemma counts_up_run_phase env phase results :
  keeps only_counts_up (run_phase env phase results).
Proof. unfold run_phase, now_isoformat. keeps_all. Qed.

Lemma counts_up_run_phases env ps : forall results,
  keeps only_counts_up (run_phases env ps results).
Proof.
  induction ps as [|phase rest IH]; intros results; cbn [run_phases].
  - keeps_all.
  - apply keeps_bind; [exact only_counts_up_trans | | exact IH].
    apply counts_up_run_phase.
Qed.

Lemma counts_up_finish_study env study_data study_id results :
  keeps only_counts_up (finish_study env study_data study_id results).
Proof. unfold finish_study, now_isoformat. keeps_all. Qed.

Lemma counts_up_except_study env study_id e :
  keeps only_counts_up (except_study env study_id e).
Proof. unfold except_study, now_isoformat. keeps_all. Qed.

Lemma counts_up_process_study env study_data :
  keeps only_counts_up (process_study env study_data).
Proof.
  unfold process_study.
  apply keeps_bind; [exact only_counts_up_trans | apply keeps_py_get; exact only_counts_up_refl |].
  intros study_id.
  apply keeps_try_except_Exception;
    [exact only_counts_up_trans | | intros e; apply counts_up_except_study].
  apply keeps_bind;
    [exact only_counts_up_trans
    | apply keeps_render; exact only_counts_up_refl |].
  intros _.
  apply keeps_bind; [exact only_counts_up_trans | apply counts_up_run_phases |].
  intros results. apply counts_up_finish_study.
Qed.

Lemma counts_up_process_study_endpoint env request :
  keeps only_counts_up (process_study_endpoint env request).
Proof.
  unfold process_study_endpoint.
  apply keeps_bind; [exact only_counts_up_trans | |].
  - apply keeps_try_except_all;
      [exact only_counts_up_trans
      | apply keeps_request_json; exact only_counts_up_refl
      | apply keeps_ret; exact only_counts_up_refl].
  - intros data.
    apply keeps_bind;
      [exact only_counts_up_trans | apply counts_up_process_study |].
    intros result. apply keeps_json_response. exact only_counts_up_refl.
Qed.

Lemma same_test_apis env : keeps same_orchestrator (test_apis env).
Proof. unfold test_apis. keeps_all. Qed.

Lemma same_api_status env request :
  keeps same_orchestrator (api_status env request).
Proof.
  unfold api_status, now_isoformat.
  apply keeps_bind; [exact same_orchestrator_trans | apply same_test_apis |].
  keeps_all.
Qed.

Lemma same_health_check env request :
  keeps same_orchestrator (health_check env request).
Proof. unfold health_check, now_isoformat. keeps_all. Qed.

Lemma same_dashboard host env request :
  keeps same_orchestrator (dashboard host env request).
Proof. unfold dashboard. keeps_all. Qed.

(** ** More on [process_study] *)

(** Whatever the environment does, the outcome of a call on a dict
    whose id can be written into the log lines is one of three. *)
Lemma process_study_outcomes env d st :
  renders env (id_of d) = true ->
  (no_failure env st 4 /\
   process_study env (PDict d) st =
   (Returned
      (final_result_of (get_default d "id" (PStr "demo-001"))
         (phase_records env phases (n_now st))
         (get_default d "title" (PStr "Estudo Técnico Automatizado"))
         (isoformat env (now_at env (n_now st + 4)))),
    mk_state
      (mk_stats (studies_completed (processing_stats st) + 1)
         (studies_failed (processing_stats st))
         (uptime_start (processing_stats st)))
      (config st) (n_now st + 5) (n_sleep st + 4) (sent st)))
  \/
  (exists j e,
     (j < 4)%nat /\ first_failure env st j e /\ is_Exception e = true /\
     process_study env (PDict d) st =
     (Returned
        (error_result_of (get_default d "id" (PStr "demo-001")) e
           (isoformat env (now_at env (n_now st + j)))),
      mk_state
        (mk_stats (studies_completed (processing_stats st))
           (studies_failed (processing_stats st) + 1)
           (uptime_start (processing_stats st)))
        (config st) (n_now st + j + 1) (n_sleep st + j + 1) (sent st)))
  \/
  (exists j e,
     (j < 4)%nat /\ first_failure env st j e /\ is_Exception e = false /\
     process_study env (PDict d) st = (Raised e, advance st j (S j))).
Proof.
  intros Hr.
  destruct (failure_cases env st 4) as [H | (j & e & Hj & Hf)].
  - left. split; [assumption | now apply process_study_completes].
  - destruct (is_Exception e) eqn:He.
    + right. left. exists j, e. repeat split; try assumption; try apply Hf.
      now apply process_study_fails.
    + right. right. exists j, e. repeat split; try assumption; try apply Hf.
      now apply process_study_interrupted.
Qed.

(** X1. The outcome of [process_study] on a dict, and the state it
    leaves, depend on the dict through its ['id'] and ['title'] entries
    only: every other key (such as ['client']) is ignored, in every
    environment. *)
Theorem X1_process_study_reads_id_and_title env d1 d2 st :
  dict_get d1 "id" = dict_get d2 "id" ->
  dict_get d1 "title" = dict_get d2 "title" ->
  process_study env (PDict d1) st = process_study env (PDict d2) st.
Proof.
  intros Hid Htitle.
  assert (Gid : forall x, get_default d1 "id" x = get_default d2 "id" x)
    by (intros x; unfold get_default; now rewrite Hid).
  assert (Gt : forall x, get_default d1 "title" x = get_default d2 "title" x)
    by (intros x; unfold get_default; now rewrite Htitle).
  assert (Hids : id_of d1 = id_of d2) by apply Gid.
  destruct (renders env (id_of d2)) eqn:Hr2.
  - assert (Hr1 : renders env (id_of d1) = true) by now rewrite Hids.
    destruct (process_study_outcomes env d2 st Hr2)
      as [[Hcalm Heq] | [(j & e & Hj & Hf & He & Heq) | (j & e & Hj & Hf & He & Heq)]];
      rewrite Heq.
    + rewrite (process_study_completes env d1 st Hr1 Hcalm), Gid, Gt. reflexivity.
    + rewrite (process_study_fails env d1 st j e Hr1 Hj Hf He), Gid. reflexivity.
    + apply process_study_interrupted; assumption.
  - destruct (renders_false env _ Hr2) as [e He].
    rewrite (process_study_unrendered env d2 st e He).
    apply process_study_unrendered. now rewrite Hids.
Qed.

Lemma X1_witness :
  dict_get [("id", PStr "a"); ("client", PStr "x")] "id" =
    dict_get [("client", PList []); ("id", PStr "a"); ("n", PInt 1)] "id" /\
  dict_get [("id", PStr "a"); ("client", PStr "x")] "title" =
    dict_get [("client", PList []); ("id", PStr "a"); ("n", PInt 1)] "title" /\
  process_study (failing_env 3 boom)
    (PDict [("id", PStr "a"); ("client", PStr "x")])
    (fresh_state (failing_env 3 boom)) =
  process_study (failing_env 3 boom)
    (PDict [("client", PList []); ("id", PStr "a"); ("n", PInt 1)])
    (fresh_state (failing_env 3 boom)).
Proof.
  split; [reflexivity|]. split; [reflexivity|].
  apply (X1_process_study_reads_id_and_title (failing_env 3 boom)
           [("id", PStr "a"); ("client", PStr "x")]
           [("client", PList []); ("id", PStr "a"); ("n", PInt 1)]
           (fresh_state (failing_env 3 boom))); reflexivity.
Defined.

(** X2. On a dict whose id can be written into the log lines, when the
    first sleep to fail raises something that does not derive from
    [Exception] (a cancellation), [except Exception] lets it through:
    [process_study] raises it outward, no result is built, and the study
    is counted neither as completed nor as failed. *)
Theorem X2_cancelled_study_is_not_counted env d st j e :
  renders env (id_of d) = true ->
  (j < 4)%nat ->
  first_failure env st j e ->
  is_Exception e = false ->
  fst (process_study env (PDict d) st) = Raised e /\
  processing_stats (snd (process_study env (PDict d) st)) = processing_stats st /\
  n_sleep (snd (process_study env (PDict d) st)) = (n_sleep st + S j)%nat.
Proof.
  intros Hr Hj Hf He.
  rewrite (process_study_interrupted env d st j e Hr Hj Hf He).
  repeat split.
Qed.

Lemma X2_witness :
  renders (failing_env 1 cancelled) (id_of [("id", PStr "a")]) = true /\
  (1 < 4)%nat /\
  first_failure (failing_env 1 cancelled) (fresh_state (failing_env 1 cancelled))
    1 cancelled /\
  is_Exception cancelled = false /\
  fst (process_study (failing_env 1 cancelled) (PDict [("id", PStr "a")])
         (fresh_state (failing_env 1 cancelled))) = Raised cancelled /\
  processing_stats
    (snd (process_study (failing_env 1 cancelled) (PDict [("id", PStr "a")])
            (fresh_state (failing_env 1 cancelled)))) =
  processing_stats (fresh_state (failing_env 1 cancelled)) /\
  n_sleep
    (snd (process_study (failing_env 1 cancelled) (PDict [("id", PStr "a")])
            (fresh_state (failing_env 1 cancelled)))) =
  (n_sleep (fresh_state (failing_env 1 cancelled)) + 2)%nat.
Proof.
  assert (Hf : first_failure (failing_env 1 cancelled)
                 (fresh_state (failing_env 1 cancelled)) 1 cancelled).
  { split; [|reflexivity]. intros k Hk.
    assert (k = 0)%nat as -> by lia. reflexivity. }
  split; [reflexivity|].
  split; [lia|]. split; [exact Hf|]. split; [reflexivity|].
  apply (X2_cancelled_study_is_not_counted (failing_env 1 cancelled)
           [("id", PStr "a")] (fresh_state (failing_env 1 cancelled))
           1%nat cancelled); [reflexivity | lia | exact Hf | reflexivity].
Defined.

(** X3. Whatever its argument (a dict or not) and whatever the
    environment does, [process_study] leaves the configuration, the
    start time and the record of HTTP calls as they were, and never
    lowers a counter. *)
Theorem X3_process_study_only_counts_up env study_data st :
  config (snd (process_study env study_data st)) = config st /\
  sent (snd (process_study env study_data st)) = sent st /\
  uptime_start (processing_stats (snd (process_study env study_data st))) =
    uptime_start (processing_stats st) /\
  studies_completed (processing_stats st) <=
    studies_completed (processing_stats (snd (process_study env study_data st))) /\
  studies_failed (processing_stats st) <=
    studies_failed (processing_stats (snd (process_study env study_data st))).
Proof. exact (counts_up_process_study env study_data st). Qed.

(** ** More on [POST /process] *)












(** ** More on the probes and the read-only routes *)

(** X6. When the call to the first provider is cut short by something
    that does not derive from [Exception] (a cancellation), [test_apis]
    raises it outward: no entry is built and the second provider is
    not probed at all. *)
Theorem X6_interrupted_probe_stops_test_apis env st e :
  http_at env (List.length (sent st)) (openai_request (config st))
  = HttpRaises e ->
  is_Exception e = false ->
  fst (test_apis env st) = Raised e /\
  sent (snd (test_apis env st)) = (sent st ++ [openai_request (config st)])%list /\
  served_status (fst (api_status env (mk_request "") st)) = None.
Proof.
  intros Hcall He.
  assert (H : test_apis env st =
              (Raised e,
               mk_state (processing_stats st) (config st) (n_now st)
                 (n_sleep st) (sent st ++ [openai_request (config st)]))).
  { unfold test_apis.
    cbv [bind ret try_except_Exception get_config http_call].
    rewrite Hcall, He. reflexivity. }
  rewrite H. repeat split.
  unfold api_status. unfold bind at 1. rewrite H.
  cbn [fst served_status]. now rewrite He.
Qed.

Lemma X6_witness :
  http_at interrupted_env (List.length (sent (fresh_state interrupted_env)))
    (openai_request (config (fresh_state interrupted_env)))
  = HttpRaises cancelled /\
  is_Exception cancelled = false /\
  fst (test_apis interrupted_env (fresh_state interrupted_env)) = Raised cancelled /\
  sent (snd (test_apis interrupted_env (fresh_state interrupted_env))) =
    (sent (fresh_state interrupted_env)
     ++ [openai_request (config (fresh_state interrupted_env))])%list /\
  served_status
    (fst (api_status interrupted_env (mk_request "")
            (fresh_state interrupted_env))) = None.
Proof.
  split; [reflexivity|]. split; [reflexivity|].
  apply (X6_interrupted_probe_stops_test_apis interrupted_env
           (fresh_state interrupted_env) cancelled); reflexivity.
Defined.

(** X7. The configuration is not validated.  When the constructor
    finds [OPENAI_API_KEY], [SUPABASE_URL] and [SUPABASE_KEY] unset,
    [test_apis] still makes both calls: the first with the header
    [Authorization: Bearer None], the second to the URL
    [None/rest/v1/] with the header [apikey] set to [None]. *)
Theorem X7_unset_configuration_is_probed_as_None env st0 :
  getenv env "OPENAI_API_KEY" = None ->
  getenv env "SUPABASE_URL" = None ->
  getenv env "SUPABASE_KEY" = None ->
  probe_failures_are_Exceptions env ->
  let st := snd (EstudoOrchestrator_init env st0) in
  sent (snd (test_apis env st)) =
  (sent st0 ++
   [ mk_http POST "https://api.openai.com/v1/chat/completions"
       [ ("Authorization", PStr "Bearer None");
         ("Content-Type", PStr "application/json") ]
       (Some openai_payload) 30;
     mk_http GET "None/rest/v1/"
       [ ("apikey", PNone); ("Authorization", PStr "Bearer None") ]
       None 30 ])%list.
Proof.
  intros H1 H2 H3 Hexn st.
  rewrite (test_apis_result env st Hexn). subst st.
  cbn [snd sent config EstudoOrchestrator_init].
  unfold openai_request, supabase_request.
  cbn [openai_key supabase_url supabase_key]. rewrite H1, H2, H3.
  reflexivity.
Qed.

Lemma X7_witness :
  getenv calm_env "OPENAI_API_KEY" = None /\
  getenv calm_env "SUPABASE_URL" = None /\
  getenv calm_env "SUPABASE_KEY" = None /\
  probe_failures_are_Exceptions calm_env /\
  let st := snd (EstudoOrchestrator_init calm_env blank_state) in
  sent (snd (test_apis calm_env st)) =
  (sent blank_state ++
   [ mk_http POST "https://api.openai.com/v1/chat/completions"
       [ ("Authorization", PStr "Bearer None");
         ("Content-Type", PStr "application/json") ]
       (Some openai_payload) 30;
     mk_http GET "None/rest/v1/"
       [ ("apikey", PNone); ("Authorization", PStr "Bearer None") ]
       None 30 ])%list.
Proof.
  split; [reflexivity|]. split; [reflexivity|]. split; [reflexivity|].
  split; [intros k req e H; discriminate|].
  apply (X7_unset_configuration_is_probed_as_None calm_env blank_state);
    try reflexivity.
  intros k req e H; discriminate.
Defined.

(** X8. The three [GET] handlers are read-only: whatever the
    environment does, and whether they return or raise, [dashboard],
    [health_check] and [api_status] leave the counters, the start time
    and the configuration of the orchestrator as they were. *)
Theorem X8_get_handlers_are_read_only host env request st :
  (processing_stats (snd (dashboard host env request st)) = processing_stats st /\
   config (snd (dashboard host env request st)) = config st) /\
  (processing_stats (snd (health_check env request st)) = processing_stats st /\
   config (snd (health_check env request st)) = config st) /\
  (processing_stats (snd (api_status env request st)) = processing_stats st /\
   config (snd (api_status env request st)) = config st).
Proof.
  split; [exact (same_dashboard host env request st)|].
  split; [exact (same_health_check env request st)|].
  exact (same_api_status env request st).
Qed.

(** ** The dashboard *)

Lemma string_app_assoc (a b c : string) : (a ++ b) ++ c = a ++ (b ++ c).
Proof. induction a as [|x a IH]; cbn; [reflexivity | now rewrite IH]. Qed.

(** The page is a fixed text around three paragraphs that carry the
    values. *)
Lemma dashboard_html_shape :
  exists head0 between0 between1 tail0,
  forall completed failed uptime,
    dashboard_html completed failed uptime =
    head0 ++ "<p><strong>Estudos Processados:</strong> " ++ completed ++ "</p>"
    ++ between0 ++ "<p><strong>Estudos com Erro:</strong> " ++ failed ++ "</p>"
    ++ between1 ++ "<p><strong>Uptime:</strong> " ++ uptime ++ "</p>"
    ++ tail0.
Proof.
  exists (substring 0 (String.length dashboard_head - 41) dashboard_head).
  exists (substring 4 (String.length dashboard_between_counters - 42)
            dashboard_between_counters).
  exists (substring 4 (String.length dashboard_before_uptime - 32)
            dashboard_before_uptime).
  exists (substring 4 (String.length dashboard_tail - 4) dashboard_tail).
  intros completed failed uptime. unfold dashboard_html.
  replace dashboard_head
    with (substring 0 (String.length dashboard_head - 41) dashboard_head
          ++ "<p><strong>Estudos Processados:</strong> ")
    at 1 by (vm_compute; reflexivity).
  replace dashboard_between_counters
    with ("</p>"
          ++ substring 4 (String.length dashboard_between_counters - 42)
               dashboard_between_counters
          ++ "<p><strong>Estudos com Erro:</strong> ")
    at 1 by (vm_compute; reflexivity).
  replace dashboard_before_uptime
    with ("</p>"
          ++ substring 4 (String.length dashboard_before_uptime - 32)
               dashboard_before_uptime
          ++ "<p><strong>Uptime:</strong> ")
    at 1 by (vm_compute; reflexivity).
  replace dashboard_tail
    with ("</p>" ++ substring 4 (String.length dashboard_tail - 4) dashboard_tail)
    at 1 by (vm_compute; reflexivity).
  rewrite !string_app_assoc. reflexivity.
Qed.

(** X9. [dashboard] answers in every state, with status 200 and
    content type [text/html], reading the clock once and changing
    nothing else; the page carries, each in its own paragraph, the two
    counters in decimal and the time since the start as [str] renders
    it. *)
Theorem X9_dashboard_shows_the_counters host env request st :
  exists page,
    dashboard host env request st =
    (Returned (mk_text_response 200 "text/html" page), advance st 1 0) /\
    (exists before after,
       page = before ++ "<p><strong>Estudos Processados:</strong> "
              ++ str_int (studies_completed (processing_stats st)) ++ "</p>"
              ++ after) /\
    (exists before after,
       page = before ++ "<p><strong>Estudos com Erro:</strong> "
              ++ str_int (studies_failed (processing_stats st)) ++ "</p>"
              ++ after) /\
    (exists before after,
       page = before ++ "<p><strong>Uptime:</strong> "
              ++ str_timedelta host
                   (now_at env (n_now st) - uptime_start (processing_stats st))
              ++ "</p>" ++ after).
Proof.
  destruct dashboard_html_shape as (head0 & b0 & b1 & tail0 & Hshape).
  eexists. split.
  - unfold dashboard. cbv [bind ret get_stats datetime_now advance].
    cbn [n_now n_sleep processing_stats config sent].
    rewrite Nat.add_1_r, Nat.add_0_r. reflexivity.
  - rewrite Hshape. split; [|split].
    + exists head0. eexists. reflexivity.
    + exists (head0 ++ "<p><strong>Estudos Processados:</strong> "
              ++ str_int (studies_completed (processing_stats st)) ++ "</p>"
              ++ b0).
      exists (b1 ++ "<p><strong>Uptime:</strong> "
              ++ str_timedelta host
                   (now_at env (n_now st) - uptime_start (processing_stats st))
              ++ "</p>" ++ tail0).
      rewrite !string_app_assoc. reflexivity.
    + exists (head0 ++ "<p><strong>Estudos Processados:</strong> "
              ++ str_int (studies_completed (processing_stats st)) ++ "</p>"
              ++ b0 ++ "<p><strong>Estudos com Erro:</strong> "
              ++ str_int (studies_failed (processing_stats st)) ++ "</p>"
              ++ b1).
      exists tail0.
      rewrite !string_app_assoc. reflexivity.
Qed.

(** ** The routes *)

(** Where the router of [create_app] sends a request. *)
Lemma resolve_create_app v path :
  resolve create_app v path =
  if String.eqb "/" path then
    match v with VGet | VHead => Found h_dashboard | _ => MethodNotAllowed end
  else if String.eqb "/health" path then
    match v with VGet | VHead => Found h_health_check | _ => MethodNotAllowed end
  else if String.eqb "/api-status" path then
    match v with VGet | VHead => Found h_api_status | _ => MethodNotAllowed end
  else if String.eqb "/process" path then
    match v with VPost => Found h_process_study_endpoint | _ => MethodNotAllowed end
  else NotFound.
Proof.
  unfold create_app, add_post, add_get. cbn [app resolve].
  destruct (String.eqb_spec "/" path) as [<- | H1].
  { destruct v; reflexivity. }
  destruct (String.eqb_spec "/health" path) as [<- | H2].
  { destruct v; reflexivity. }
  destruct (String.eqb_spec "/api-status" path) as [<- | H3].
  { destruct v; reflexivity. }
  destruct (String.eqb_spec "/process" path) as [<- | H4].
  { destruct v; reflexivity. }
  reflexivity.
Qed.

(** X10. The application of [create_app] runs a handler for exactly
    seven kinds of request: [GET] and [HEAD] on [/], [/health] and
    [/api-status], and [POST] on [/process]; one of these paths with
    another method is refused (405), and every other path is unknown
    (404). *)
Theorem X10_routes_of_create_app v path :
  (forall h,
     resolve create_app v path = Found h <->
     ((v = VGet \/ v = VHead) /\
      ((path = "/" /\ h = h_dashboard) \/
       (path = "/health" /\ h = h_health_check) \/
       (path = "/api-status" /\ h = h_api_status)))
     \/ (v = VPost /\ path = "/process" /\ h = h_process_study_endpoint)) /\
  (resolve create_app v path = NotFound <->
   path <> "/" /\ path <> "/health" /\ path <> "/api-status" /\
   path <> "/process").
Proof.
  rewrite resolve_create_app.
  destruct (String.eqb_spec "/" path) as [<- | H1];
    [| destruct (String.eqb_spec "/health" path) as [<- | H2];
       [| destruct (String.eqb_spec "/api-status" path) as [<- | H3];
          [| destruct (String.eqb_spec "/process" path) as [<- | H4] ] ] ];
    (split; [intros h; split | split]);
    try (destruct v; intros H; try discriminate H; inversion H; subst;
         intuition congruence);
    try (intros H; intuition (try discriminate; try congruence));
    try (destruct v; intuition (try discriminate; try congruence)).
Qed.

Lemma same_orchestrator_counts_up st st' :
  same_orchestrator st st' ->
  config st' = config st /\
  uptime_start (processing_stats st') = uptime_start (processing_stats st) /\
  studies_completed (processing_stats st)
    <= studies_completed (processing_stats st') /\
  studies_failed (processing_stats st) <= studies_failed (processing_stats st').
Proof. intros [Hs Hc]. rewrite Hs. repeat split; try assumption; lia. Qed.

Lemma snd_run_handler host env h request st :
  snd (run_handler host env h request st) =
  match h with
  | h_dashboard => snd (dashboard host env request st)
  | h_health_check => snd (health_check env request st)
  | h_api_status => snd (api_status env request st)
  | h_process_study_endpoint => snd (process_study_endpoint env request st)
  end.
Proof.
  destruct h; cbn [run_handler].
  - now destruct (dashboard host env request st).
  - now destruct (health_check env request st).
  - now destruct (api_status env request st).
  - now destruct (process_study_endpoint env request st).
Qed.

(** X11. Whatever request the application serves, and whatever the
    environment does, the configuration and the start time stay as they
    were and no counter goes down; and the counters can only change
    when the request is a [POST] on [/process]. *)
Theorem X11_only_post_process_moves_the_counters host env v path request st :
  let st' := snd (serve host env v path request st) in
  config st' = config st /\
  uptime_start (processing_stats st') = uptime_start (processing_stats st) /\
  studies_completed (processing_stats st)
    <= studies_completed (processing_stats st') /\
  studies_failed (processing_stats st) <= studies_failed (processing_stats st') /\
  (processing_stats st' <> processing_stats st ->
   v = VPost /\ path = "/process").
Proof.
  cbn zeta. unfold serve.
  assert (Hsame : forall st', same_orchestrator st st' ->
            config st' = config st /\
            uptime_start (processing_stats st') = uptime_start (processing_stats st) /\
            studies_completed (processing_stats st)
              <= studies_completed (processing_stats st') /\
            studies_failed (processing_stats st)
              <= studies_failed (processing_stats st') /\
            (processing_stats st' <> processing_stats st ->
             v = VPost /\ path = "/process")).
  { intros st' H. pose proof (same_orchestrator_counts_up st st' H) as (A & B & C & D).
    refine (conj A (conj B (conj C (conj D _)))).
    intros Hne. destruct H as [Hs _]. contradiction. }
  destruct (resolve create_app v path) as [h | |] eqn:E;
    [ | apply Hsame, same_orchestrator_refl | apply Hsame, same_orchestrator_refl ].
  rewrite snd_run_handler. destruct h.
  - apply Hsame, same_dashboard.
  - apply Hsame, same_health_check.
  - apply Hsame, same_api_status.
  - destruct (counts_up_process_study_endpoint env request st)
      as (A & _ & B & C & D).
    refine (conj A (conj B (conj C (conj D _)))). intros _.
    rewrite resolve_create_app in E.
    destruct (String.eqb_spec "/" path);
      [destruct v; discriminate|].
    destruct (String.eqb_spec "/health" path);
      [destruct v; discriminate|].
    destruct (String.eqb_spec "/api-status" path);
      [destruct v; discriminate|].
    destruct (String.eqb_spec "/process" path) as [<- |]; [|discriminate].
    destruct v; try discriminate. split; reflexivity.
Qed.

(** ** More on interleaved coroutines *)

Lemma counts_up_done (m : M pyval) st :
  keeps only_counts_up m -> only_counts_up st (snd (done m st)).
Proof.
  intros H. unfold done. specialize (H st). now destruct (m st).
Qed.

Lemma counts_up_enter_loop env study_data study_id ps results st :
  only_counts_up st (snd (enter_loop env study_data study_id ps results st)).
Proof.
  destruct ps as [|p ps]; cbn [enter_loop snd]; [|apply only_counts_up_refl].
  apply counts_up_done.
  apply keeps_try_except_Exception;
    [exact only_counts_up_trans | apply counts_up_finish_study
    | intros e; apply counts_up_except_study].
Qed.

Lemma counts_up_resume env t st : only_counts_up st (snd (resume env t st)).
Proof.
  destruct t as [study_data study_id ps results | o];
    [|apply only_counts_up_refl].
  destruct ps as [|phase rest]; cbn [resume].
  - apply counts_up_enter_loop.
  - pose proof (counts_up_run_phase env phase results st) as H.
    destruct (run_phase env phase results st) as [[results' | e] st1];
      cbn [snd] in H.
    + eapply only_counts_up_trans; [exact H | apply counts_up_enter_loop].
    + eapply only_counts_up_trans; [exact H |].
      apply counts_up_done.
      apply keeps_try_except_Exception;
        [exact only_counts_up_trans | apply keeps_raise; exact only_counts_up_refl
        | intros e0; apply counts_up_except_study].
Qed.

Lemma set_nth_length {A} (x : A) l : forall i,
  List.length (set_nth i x l) = List.length l.
Proof.
  induction l as [|y l IH]; intros i; [now destruct i|].
  destruct i; cbn; [reflexivity | now rewrite IH].
Qed.

Lemma run_event_counts_up env ev pool st :
  only_counts_up st (snd (run_event env ev pool st)) /\
  List.length (fst (run_event env ev pool st)) =
    (List.length pool + match ev with Call _ => 1 | Wake _ => 0 end)%nat.
Proof.
  destruct ev as [d | i].
  - cbn [run_event]. rewrite call_study_dict.
    destruct (str_error env (id_of d)); cbn [fst snd];
      (split; [apply only_counts_up_refl | now rewrite length_app]).
  - cbn [run_event]. destruct (nth_error pool i) as [t|];
      [| split; [apply only_counts_up_refl | cbn; lia] ].
    pose proof (counts_up_resume env t st) as H.
    destruct (resume env t st) as [t' st']. cbn [fst snd] in *.
    split; [exact H|]. rewrite set_nth_length. lia.
Qed.

(** X12. However requests arrive and coroutines are resumed, and
    whatever the environment does, the coroutines of [process_study]
    leave the configuration, the record of HTTP calls and the start
    time alone and never lower a counter; and no coroutine is lost or
    duplicated: the pool grows by one per request. *)
Theorem X12_coroutines_only_count_up env evs : forall pool st,
  let pool' := fst (run_events env evs pool st) in
  let st' := snd (run_events env evs pool st) in
  config st' = config st /\
  sent st' = sent st /\
  uptime_start (processing_stats st') = uptime_start (processing_stats st) /\
  studies_completed (processing_stats st)
    <= studies_completed (processing_stats st') /\
  studies_failed (processing_stats st) <= studies_failed (processing_stats st') /\
  List.length pool' =
    (List.length pool
     + List.length (filter (fun ev => match ev with
                                       | Call _ => true
                                       | Wake _ => false
                                       end) evs))%nat.
Proof.
  induction evs as [|ev evs IH]; intros pool st; cbn zeta.
  - cbn [run_events fst snd filter List.length].
    destruct (only_counts_up_refl st) as (A & B & C & D & E).
    refine (conj A (conj B (conj C (conj D (conj E _))))). lia.
  - cbn [run_events].
    destruct (run_event_counts_up env ev pool st) as [Hst Hlen].
    destruct (run_event env ev pool st) as [pool1 st1]. cbn [fst snd] in *.
    specialize (IH pool1 st1). cbn zeta in IH.
    destruct IH as (A & B & C & D & E & F).
    destruct (only_counts_up_trans st st1 _ Hst
                (conj A (conj B (conj C (conj D E))))) as (A' & B' & C' & D' & E').
    refine (conj A' (conj B' (conj C' (conj D' (conj E' _))))).
    rewrite F, Hlen. destruct ev; cbn [filter List.length]; lia.
Qed.

(** ** [main] *)

Lemma keep_alive_running env n : forall st,
  no_failure env st n ->
  keep_alive env n st = (Running, advance st 0 n).
Proof.
  induction n as [|n IH]; intros st H.
  - cbn. now rewrite advance_0_0.
  - apply no_failure_S in H. destruct H as [H0 H].
    cbn [keep_alive]. unfold asyncio_sleep. rewrite H0.
    assert (H' : no_failure env
                   (mk_state (processing_stats st) (config st) (n_now st)
                      (S (n_sleep st)) (sent st)) n).
    { intros k Hk. cbn [n_sleep]. specialize (H k Hk). cbn in H.
      now rewrite Nat.add_1_r in H. }
    rewrite (IH _ H'). unfold advance.
    cbn [n_now n_sleep processing_stats config sent].
    f_equal. f_equal; lia.
Qed.

Lemma keep_alive_stops env n : forall st j e,
  (j < n)%nat ->
  first_failure env st j e ->
  keep_alive env n st = (Stopped (Raised e), advance st 0 (S j)).
Proof.
  induction n as [|n IH]; intros st j e Hj Hf; [lia|].
  cbn [keep_alive]. unfold asyncio_sleep.
  destruct j as [|j].
  - destruct Hf as [_ He]. rewrite Nat.add_0_r in He. rewrite He.
    unfold advance. f_equal. f_equal; lia.
  - apply first_failure_S in Hf. destruct Hf as [H0 Hf]. rewrite H0.
    assert (Hf' : first_failure env
                    (mk_state (processing_stats st) (config st) (n_now st)
                       (S (n_sleep st)) (sent st)) j e).
    { destruct Hf as [Hn He]. split.
      - intros k Hk. specialize (Hn k Hk). cbn in Hn. cbn [n_sleep].
        now rewrite Nat.add_1_r in Hn.
      - cbn in He. cbn [n_sleep]. now rewrite Nat.add_1_r in He. }
    rewrite (IH _ j e ltac:(lia) Hf'). unfold advance.
    cbn [n_now n_sleep processing_stats config sent].
    f_equal. f_equal; lia.
Qed.

(** X13. With [PORT] unset, the site is started on port 8000; when it
    starts and none of the first [n] sleeps of the loop fails, [main]
    is still running after [n] turns of its loop, whatever [n], having
    touched nothing but the sleeps. *)
Theorem X13_main_keeps_running host env n st :
  getenv env "PORT" = None ->
  start_site host 8000 = None ->
  no_failure env st n ->
  main host env n st = (Running, advance st 0 n) /\
  fst (dunder_main host env n st) = StillRunning.
Proof.
  intros Hport Hsite Hcalm.
  assert (H : main host env n st = (Running, advance st 0 n)).
  { unfold main, read_port. rewrite Hport.
    rewrite (small_int_renders env 8000)
      by (apply Z.ltb_lt; vm_compute; reflexivity).
    rewrite Hsite, (keep_alive_running env n st Hcalm). reflexivity. }
  split; [exact H|]. unfold dunder_main. rewrite H. reflexivity.
Qed.

Lemma X13_witness :
  getenv calm_env "PORT" = None /\
  start_site easy_host 8000 = None /\
  no_failure calm_env (fresh_state calm_env) 1000 /\
  main easy_host calm_env 1000 (fresh_state calm_env) =
    (Running, advance (fresh_state calm_env) 0 1000) /\
  fst (dunder_main easy_host calm_env 1000 (fresh_state calm_env)) = StillRunning.
Proof.
  split; [reflexivity|]. split; [reflexivity|].
  split; [intros k Hk; reflexivity|].
  apply (X13_main_keeps_running easy_host calm_env 1000 (fresh_state calm_env));
    [reflexivity | reflexivity | intros k Hk; reflexivity].
Defined.

Lemma log_and_reraise_id {A} (r : progress A) : log_and_reraise r = r.
Proof.
  destruct r as [[a | e] |]; cbn [log_and_reraise]; try reflexivity.
  destruct (is_Exception e); reflexivity.
Qed.

(** The four ways through [main]: [int] raises on [PORT]; the port
    cannot be written into the log line; the site does not start; the
    loop is entered. *)
Lemma main_cases host env n st :
  (exists s e, getenv env "PORT" = Some s /\ py_int host s = inl e /\
               main host env n st = (Stopped (Raised e), st))
  \/
  (exists port e, read_port host env = Returned port /\
                  str_error env (PInt port) = Some e /\
                  main host env n st = (Stopped (Raised e), st))
  \/
  (exists port e, read_port host env = Returned port /\
                  str_error env (PInt port) = None /\
                  start_site host port = Some e /\
                  main host env n st = (Stopped (Raised e), st))
  \/
  (exists port, read_port host env = Returned port /\
                str_error env (PInt port) = None /\
                start_site host port = None /\
                main host env n st = keep_alive env n st).
Proof.
  unfold main. destruct (read_port host env) as [port | e] eqn:Hrp.
  - right. destruct (str_error env (PInt port)) as [e|] eqn:Hr.
    + left. exists port, e. rewrite log_and_reraise_id. now repeat split.
    + right. destruct (start_site host port) as [e|] eqn:Hsite.
      * left. exists port, e. rewrite log_and_reraise_id. now repeat split.
      * right. exists port. repeat split; try assumption.
        destruct (keep_alive env n st) as [r st'].
        now rewrite log_and_reraise_id.
  - left. unfold read_port in Hrp.
    destruct (getenv env "PORT") as [s|]; [|discriminate].
    destruct (py_int host s) as [e' | port] eqn:Hint; [|discriminate].
    inversion Hrp; subst. exists s, e. rewrite log_and_reraise_id.
    now repeat split.
Qed.

(** What the [__main__] block makes of an exception of [main], after
    [asyncio.run] has had it. *)
Lemma dunder_main_of_raise host env n st e st' :
  main host env n st = (Stopped (Raised e), st') ->
  fst (dunder_main host env n st) =
  match exn_cls e with
  | KeyboardInterrupt => Exits 0
  | CancelledError => if interrupted host then Exits 0 else Propagates e
  | _ => if is_Exception e then Exits 1 else Propagates e
  end.
Proof.
  intros H. unfold dunder_main. rewrite H. cbn [fst]. unfold asyncio_run.
  destruct e as [c m]. destruct c; cbn; try reflexivity.
  destruct (interrupted host); reflexivity.
Qed.

(** X14. [main] never returns: when it stops, it is by raising, and
    what it raises is what [int] raised on [PORT], or what [str] raised
    on a port that cannot be written into the log line, or what
    starting the site raised (in all three cases before any sleep), or
    what the first failing sleep of its loop raised.  The program then
    ends with code 0 on a [KeyboardInterrupt], and also on the
    cancellation of [main] by Ctrl-C, which [asyncio.run] raises as
    [KeyboardInterrupt]; with code 1 on an [Exception]; any other
    exception, a cancellation that is not the work of Ctrl-C among them,
    leaves the [__main__] block uncaught. *)
Theorem X14_main_stops_only_by_raising host env n st o :
  fst (main host env n st) = Stopped o ->
  exists e,
    o = Raised e /\
    ((exists s, getenv env "PORT" = Some s /\ py_int host s = inl e /\
                snd (main host env n st) = st)
     \/
     (exists port, read_port host env = Returned port /\
                   str_error env (PInt port) = Some e /\
                   snd (main host env n st) = st)
     \/
     (exists port, read_port host env = Returned port /\
                   str_error env (PInt port) = None /\
                   start_site host port = Some e /\
                   snd (main host env n st) = st)
     \/
     (exists port j, read_port host env = Returned port /\
                     str_error env (PInt port) = None /\
                     start_site host port = None /\
                     (j < n)%nat /\ first_failure env st j e /\
                     snd (main host env n st) = advance st 0 (S j))) /\
    fst (dunder_main host env n st) =
      match exn_cls e with
      | KeyboardInterrupt => Exits 0
      | CancelledError => if interrupted host then Exits 0 else Propagates e
      | _ => if is_Exception e then Exits 1 else Propagates e
      end.
Proof.
  intros Hstop.
  destruct (main_cases host env n st)
    as [(s & e & Hport & Hint & Hmain)
       | [(port & e & Hrp & Hr & Hmain)
         | [(port & e & Hrp & Hr & Hsite & Hmain)
           | (port & Hrp & Hr & Hsite & Hmain)]]].
  - rewrite Hmain in Hstop. inversion Hstop; subst. exists e.
    split; [reflexivity|].
    split; [|exact (dunder_main_of_raise host env n st e st Hmain)].
    left. exists s. rewrite Hmain. now repeat split.
  - rewrite Hmain in Hstop. inversion Hstop; subst. exists e.
    split; [reflexivity|].
    split; [|exact (dunder_main_of_raise host env n st e st Hmain)].
    right. left. exists port. rewrite Hmain. now repeat split.
  - rewrite Hmain in Hstop. inversion Hstop; subst. exists e.
    split; [reflexivity|].
    split; [|exact (dunder_main_of_raise host env n st e st Hmain)].
    right. right. left. exists port. rewrite Hmain. now repeat split.
  - destruct (failure_cases env st n) as [Hcalm | (j & e & Hj & Hf)].
    + rewrite Hmain, (keep_alive_running env n st Hcalm) in Hstop.
      discriminate.
    + rewrite (keep_alive_stops env n st j e Hj Hf) in Hmain.
      rewrite Hmain in Hstop. inversion Hstop; subst. exists e.
      split; [reflexivity|].
      split; [|exact (dunder_main_of_raise host env n st e _ Hmain)].
      right. right. right. exists port, j. rewrite Hmain.
      repeat split; try assumption; apply Hf.
Qed.

Lemma X14_witness :
  fst (main easy_host (failing_env 2 cancelled) 5
         (fresh_state (failing_env 2 cancelled)))
  = Stopped (Raised cancelled) /\
  exists e,
    Raised cancelled = @Raised unit e /\
    ((exists s, getenv (failing_env 2 cancelled) "PORT" = Some s /\
                py_int easy_host s = inl e /\
                snd (main easy_host (failing_env 2 cancelled) 5
                       (fresh_state (failing_env 2 cancelled)))
                = fresh_state (failing_env 2 cancelled))
     \/
     (exists port,
        read_port easy_host (failing_env 2 cancelled) = Returned port /\
        str_error (failing_env 2 cancelled) (PInt port) = Some e /\
        snd (main easy_host (failing_env 2 cancelled) 5
               (fresh_state (failing_env 2 cancelled)))
        = fresh_state (failing_env 2 cancelled))
     \/
     (exists port,
        read_port easy_host (failing_env 2 cancelled) = Returned port /\
        str_error (failing_env 2 cancelled) (PInt port) = None /\
        start_site easy_host port = Some e /\
        snd (main easy_host (failing_env 2 cancelled) 5
               (fresh_state (failing_env 2 cancelled)))
        = fresh_state (failing_env 2 cancelled))
     \/
     (exists port j,
        read_port easy_host (failing_env 2 cancelled) = Returned port /\
        str_error (failing_env 2 cancelled) (PInt port) = None /\
        start_site easy_host port = None /\
        (j < 5)%nat /\
        first_failure (failing_env 2 cancelled)
          (fresh_state (failing_env 2 cancelled)) j e /\
        snd (main easy_host (failing_env 2 cancelled) 5
               (fresh_state (failing_env 2 cancelled)))
        = advance (fresh_state (failing_env 2 cancelled)) 0 (S j))) /\
    fst (dunder_main easy_host (failing_env 2 cancelled) 5
           (fresh_state (failing_env 2 cancelled))) =
      match exn_cls e with
      | KeyboardInterrupt => Exits 0
      | CancelledError => if interrupted easy_host then Exits 0 else Propagates e
      | _ => if is_Exception e then Exits 1 else Propagates e
      end.
Proof.
  split; [vm_compute; reflexivity|].
  apply (X14_main_stops_only_by_raising easy_host
           (failing_env 2 cancelled) 5
           (fresh_state (failing_env 2 cancelled))
           (Raised cancelled)).
  vm_compute; reflexivity.
Defined.

(** Ctrl-C while [main] sleeps in its loop: the sleep is cancelled,
    [main] lets the [CancelledError] through, [asyncio.run] raises
    [KeyboardInterrupt] and the program ends with code 0.  A
    cancellation that is not the work of Ctrl-C leaves the program
    uncaught. *)
Example ctrl_c_exits_0 :
  fst (main easy_host (failing_env 2 cancelled) 5
         (fresh_state (failing_env 2 cancelled)))
  = Stopped (Raised cancelled) /\
  fst (dunder_main easy_host (failing_env 2 cancelled) 5
         (fresh_state (failing_env 2 cancelled))) = Exits 0 /\
  fst (dunder_main
         (mk_host int_of_string (fun _ => None) str_of_timedelta false)
         (failing_env 2 cancelled) 5
         (fresh_state (failing_env 2 cancelled))) = Propagates cancelled /\
  fst (dunder_main easy_host (failing_env 2 keyboard_interrupt) 5
         (fresh_state (failing_env 2 keyboard_interrupt))) = Exits 0.
Proof.
  assert (H1 : fst (main easy_host (failing_env 2 cancelled) 5
                      (fresh_state (failing_env 2 cancelled)))
               = Stopped (Raised cancelled)) by (vm_compute; reflexivity).
  assert (H2 : fst (dunder_main easy_host (failing_env 2 cancelled) 5
                      (fresh_state (failing_env 2 cancelled))) = Exits 0)
    by (vm_compute; reflexivity).
  assert (H3 : fst (dunder_main
                      (mk_host int_of_string (fun _ => None)
                         str_of_timedelta false)
                      (failing_env 2 cancelled) 5
                      (fresh_state (failing_env 2 cancelled)))
               = Propagates cancelled) by (vm_compute; reflexivity).
  assert (H4 : fst (dunder_main easy_host (failing_env 2 keyboard_interrupt) 5
                      (fresh_state (failing_env 2 keyboard_interrupt)))
               = Exits 0) by (vm_compute; reflexivity).
  exact (conj H1 (conj H2 (conj H3 H4))).
Qed.

(** A [PORT] that is not a number ends the program with code 1 before
    the site is started; a numeric one is the port used. *)
Example malformed_port_exits_1 :
  read_port easy_host (port_env "80a") =
    Raised (mk_exn ValueError "invalid literal for int() with base 10: '80a'") /\
  fst (dunder_main easy_host (port_env "80a") 10 (fresh_state (port_env "80a")))
  = Exits 1 /\
  read_port easy_host (port_env "8080") = Returned 8080.
Proof.
  assert (H1 : read_port easy_host (port_env "80a") =
               Raised (mk_exn ValueError
                         "invalid literal for int() with base 10: '80a'"))
    by (vm_compute; reflexivity).
  assert (H2 : fst (dunder_main easy_host (port_env "80a") 10
                      (fresh_state (port_env "80a"))) = Exits 1)
    by (vm_compute; reflexivity).
  assert (H3 : read_port easy_host (port_env "8080") = Returned 8080)
    by (vm_compute; reflexivity).
  exact (conj H1 (conj H2 H3)).
Qed.

(** [int] and [str] of the host of the scenarios, at a few inputs. *)
Example easy_host_values :
  int_of_string (String " " (String "+" (String "8" (String "_"
                   (String "0" (String "010" EmptyString)))))) = inr 80 /\
  int_of_string "1__0" =
    inl (mk_exn ValueError "invalid literal for int() with base 10: '1__0'") /\
  int_of_string "8'0" =
    inl (mk_exn ValueError
           (String.concat EmptyString
              [ "invalid literal for int() with base 10: ";
                String dquote "8'0"; String dquote EmptyString ])) /\
  int_of_string "" =
    inl (mk_exn ValueError "invalid literal for int() with base 10: ''") /\
  str_of_timedelta 0 = "0:00:00" /\
  str_of_timedelta 999999 = "0:00:00.999999" /\
  str_of_timedelta 86400000000 = "1 day, 0:00:00" /\
  str_of_timedelta 176523000004 = "2 days, 1:02:03.000004" /\
  str_of_timedelta (-1) = "-1 day, 23:59:59.999999" /\
  str_of_timedelta (-86400000001) = "-2 days, 23:59:59.999999".
Proof. repeat split; vm_compute; reflexivity. Qed.

(** ** The pipeline, step by step *)

(** X15. The pipeline stops at its first failure.  On a dict whose id
    can be written into the log lines, when the sleep of phase [j]
    (counting from 0) raises an [Exception], the phases after it are not
    run and nothing is retried: the call has slept [j + 1] times and
    read the clock [j + 1] times, [j] times for the records it then
    drops and once for [failed_at]. *)
Theorem X15_pipeline_stops_at_first_failure env d st j e :
  renders env (id_of d) = true ->
  (j < 4)%nat ->
  first_failure env st j e ->
  is_Exception e = true ->
  n_sleep (snd (process_study env (PDict d) st)) = (n_sleep st + j + 1)%nat /\
  n_now (snd (process_study env (PDict d) st)) = (n_now st + j + 1)%nat /\
  field (match fst (process_study env (PDict d) st) with
         | Returned r => r
         | Raised _ => PNone
         end) "failed_at"
  = Some (PStr (isoformat env (now_at env (n_now st + j)))).
Proof.
  intros Hr Hj Hf He. rewrite (process_study_fails env d st j e Hr Hj Hf He).
  repeat split.
Qed.

Lemma X15_witness :
  renders (failing_env 1 boom) (id_of []) = true /\
  (1 < 4)%nat /\
  first_failure (failing_env 1 boom) (fresh_state (failing_env 1 boom)) 1 boom /\
  is_Exception boom = true /\
  n_sleep (snd (process_study (failing_env 1 boom) (PDict [])
                  (fresh_state (failing_env 1 boom))))
  = (n_sleep (fresh_state (failing_env 1 boom)) + 1 + 1)%nat /\
  n_now (snd (process_study (failing_env 1 boom) (PDict [])
                (fresh_state (failing_env 1 boom))))
  = (n_now (fresh_state (failing_env 1 boom)) + 1 + 1)%nat /\
  field (match fst (process_study (failing_env 1 boom) (PDict [])
                      (fresh_state (failing_env 1 boom))) with
         | Returned r => r
         | Raised _ => PNone
         end) "failed_at"
  = Some (PStr (isoformat (failing_env 1 boom)
                  (now_at (failing_env 1 boom)
                     (n_now (fresh_state (failing_env 1 boom)) + 1)))).
Proof.
  assert (Hf : first_failure (failing_env 1 boom)
                 (fresh_state (failing_env 1 boom)) 1 boom).
  { split; [|reflexivity]. intros k Hk.
    assert (k = 0)%nat as -> by lia. reflexivity. }
  split; [reflexivity|].
  split; [lia|]. split; [exact Hf|]. split; [reflexivity|].
  apply (X15_pipeline_stops_at_first_failure (failing_env 1 boom) []
           (fresh_state (failing_env 1 boom)) 1%nat boom);
    [reflexivity | lia | exact Hf | reflexivity].
Defined.

(** X16. In a completed result the timestamps are successive readings
    of the clock, in the order of the phases: on a dict whose id can be
    written into the log lines, when no sleep fails, the record of
    phase [k] carries the reading that follows the [k]-th sleep, and
    [completed_at] the one after the last record. *)
Theorem X16_timestamps_follow_the_clock env d st :
  renders env (id_of d) = true ->
  no_failure env st 4 ->
  exists r st' records,
    process_study env (PDict d) st = (Returned r, st') /\
    field r "phases" = Some (PList records) /\
    map (fun record => field record "timestamp") records =
      map (fun k => Some (PStr (isoformat env (now_at env (n_now st + k)))))
        [0; 1; 2; 3]%nat /\
    field r "completed_at" =
      Some (PStr (isoformat env (now_at env (n_now st + 4)))) /\
    n_now st' = (n_now st + 5)%nat /\
    n_sleep st' = (n_sleep st + 4)%nat.
Proof.
  intros Hr Hcalm. rewrite (process_study_completes env d st Hr Hcalm).
  do 3 eexists. split; [reflexivity|]. split; [reflexivity|].
  cbn [phase_records phases map phase_record field dict_get String.eqb
       Ascii.eqb Bool.eqb final_result_of n_now n_sleep].
  rewrite Nat.add_0_r, !Nat.add_1_r.
  replace (n_now st + 2)%nat with (S (S (n_now st))) by lia.
  replace (n_now st + 3)%nat with (S (S (S (n_now st)))) by lia.
  repeat split; reflexivity.
Qed.

Lemma X16_witness :
  renders calm_env (id_of [("id", PStr "a")]) = true /\
  no_failure calm_env (fresh_state calm_env) 4 /\
  exists r st' records,
    process_study calm_env (PDict [("id", PStr "a")]) (fresh_state calm_env)
    = (Returned r, st') /\
    field r "phases" = Some (PList records) /\
    map (fun record => field record "timestamp") records =
      map (fun k => Some (PStr (isoformat calm_env
                                  (now_at calm_env
                                     (n_now (fresh_state calm_env) + k)))))
        [0; 1; 2; 3]%nat /\
    field r "completed_at" =
      Some (PStr (isoformat calm_env
                    (now_at calm_env (n_now (fresh_state calm_env) + 4)))) /\
    n_now st' = (n_now (fresh_state calm_env) + 5)%nat /\
    n_sleep st' = (n_sleep (fresh_state calm_env) + 4)%nat.
Proof.
  split; [reflexivity|].
  split; [intros k Hk; reflexivity|].
  apply (X16_timestamps_follow_the_clock calm_env [("id", PStr "a")]
           (fresh_state calm_env)); [reflexivity|].
  intros k Hk; reflexivity.
Defined.
